(** * Edgeberry Python SDK: a shallow embedding of
      [examples/python-sdk/edgeberry/edgeberry.py] and
      [examples/python-sdk/edgeberry/edgeberry_cloudconnect.py].

    The two classes wrap a D-Bus proxy: every public method builds a small
    dict, serialises it with [json.dumps] and passes the text to one remote
    operation, inside a [try]/[except Exception] that prints and returns
    [None].  The program comes first:

    - [PyData]: Python strings (sequences of code points), values and
      exceptions;
    - [json]: [json.dumps] with its default arguments, and the reading side
      [json.loads] used to state the round trip;
    - [Py]: a state-and-exception monad for the effects of the methods
      (standard output, the calls put on the bus, raised exceptions);
    - [Edgeberry], [EdgeberryCloudConnect] and [main]: the two classes and
      [example.py], statement by statement.

    Then the words the properties are stated in ([JsonSpec], [SdkSpec] and
    a few hosts to run examples on), the lemmas ([JsonFacts], [SdkFacts]),
    the properties of the specification, and further properties of the
    same code. *)

From Stdlib Require Import NArith ZArith List String Ascii Bool Lia.
From Stdlib Require Import DecimalString HexadecimalString.

#[local] Set Warnings "-register-all".
Import ListNotations.

Open Scope N_scope.

(* ================================================================= *)
(** ** Python data *)

Module PyData.

(** A Python [str] is a sequence of Unicode code points. *)
Definition pystr : Type := list N.

(** A source-level ASCII literal, as the [str] it denotes. *)
Definition lit (s : string) : pystr :=
  map N_of_ascii (list_ascii_of_string s).

(** Code points that get a name in the encoder and decoder. *)
Definition QUOTE : N := 34.
Definition BACKSLASH : N := 92.

(** [quoted s] is the literal [s] between two double quotes. *)
Definition quoted (s : string) : pystr := QUOTE :: lit s ++ [QUOTE].

(** The values the methods can be handed and the proxy can give back.
    [PyObject cls] stands for an instance of any class that [json.dumps]
    has no encoding for ([set], [bytes], a user class, ...); floats are
    left out of the universe. *)
Inductive pyval : Type :=
| PyNone
| PyBool (b : bool)
| PyInt (z : Z)
| PyStr (s : pystr)
| PyList (elts : list pyval)
| PyDict (items : list (pyval * pyval))
| PyObject (cls : string).

(** [o.__class__.__name__] *)
Definition class_name (o : pyval) : string :=
  match o with
  | PyNone => "NoneType"
  | PyBool _ => "bool"
  | PyInt _ => "int"
  | PyStr _ => "str"
  | PyList _ => "list"
  | PyDict _ => "dict"
  | PyObject cls => cls
  end.

(** An exception instance: its class and what [str(e)] gives.  Only
    instances of [Exception] are represented: those are what [json.dumps],
    an attribute access and a D-Bus proxy call raise, and what
    [except Exception] handles. *)
Record exn : Type := Exn { exn_class : string; exn_str : pystr }.

Definition TypeError (msg : pystr) : exn := Exn "TypeError" msg.
Definition AttributeError (msg : pystr) : exn := Exn "AttributeError" msg.

(** The result of evaluating an expression or running a body. *)
Inductive outcome (A : Type) : Type :=
| Returns (a : A)
| Raises (e : exn).
Arguments Returns {A} a.
Arguments Raises {A} e.

Definition raised {A} (r : outcome A) : bool :=
  match r with Returns _ => false | Raises _ => true end.

End PyData.
Import PyData.

(* ================================================================= *)
(** ** [json.dumps] and [json.loads] *)

Module json.

(** *** Writing: [json.encoder] with the defaults of [json.dumps]
    ([ensure_ascii=True], [separators=(', ', ': ')], [skipkeys=False],
    no [default] hook). *)

Definition hex_digit (d : N) : N := if d <? 10 then 48 + d else 87 + d.

(** ['{0:04x}'.format(n)]: lower-case hexadecimal, zero-padded to four
    digits (and longer when [n] needs more). *)
Definition format_04x (n : N) : pystr :=
  if n <? 65536 then
    [hex_digit (N.shiftr n 12); hex_digit (N.land (N.shiftr n 8) 15);
     hex_digit (N.land (N.shiftr n 4) 15); hex_digit (N.land n 15)]
  else lit (HexadecimalString.NilZero.string_of_uint (N.to_hex_uint n)).

(** The [replace] callback of [py_encode_basestring_ascii], applied by
    [ESCAPE_ASCII.sub] to a backslash, a quote and every code point outside
    [' '..'~']; other code points are copied. *)
Definition escape_ascii (c : N) : pystr :=
  if c =? BACKSLASH then [BACKSLASH; BACKSLASH]
  else if c =? QUOTE then [BACKSLASH; QUOTE]
  else if (32 <=? c) && (c <=? 126) then [c]
  else if c =? 8 then lit "\b"
  else if c =? 12 then lit "\f"
  else if c =? 10 then lit "\n"
  else if c =? 13 then lit "\r"
  else if c =? 9 then lit "\t"
  else if c <? 65536 then lit "\u" ++ format_04x c
  else
    let n := c - 65536 in
    let s1 := N.lor 55296 (N.land (N.shiftr n 10) 1023) in
    let s2 := N.lor 56320 (N.land n 1023) in
    lit "\u" ++ format_04x s1 ++ lit "\u" ++ format_04x s2.

Definition escape (s : pystr) : pystr := flat_map escape_ascii s.

Definition encode_basestring_ascii (s : pystr) : pystr :=
  QUOTE :: escape s ++ [QUOTE].

(** [int.__repr__] *)
Definition int_repr (z : Z) : pystr :=
  lit (DecimalString.NilZero.string_of_int (Z.to_int z)).

(** The coercion of a dict key in [_iterencode_dict]. *)
Definition encode_key (k : pyval) : outcome pystr :=
  match k with
  | PyStr s => Returns (encode_basestring_ascii s)
  | PyBool true => Returns (encode_basestring_ascii (lit "true"))
  | PyBool false => Returns (encode_basestring_ascii (lit "false"))
  | PyNone => Returns (encode_basestring_ascii (lit "null"))
  | PyInt z => Returns (encode_basestring_ascii (int_repr z))
  | _ => Raises (TypeError
           (lit "keys must be str, int, float, bool or None, not "
            ++ lit (class_name k)))
  end.

Definition item_separator : pystr := lit ", ".
Definition key_separator : pystr := lit ": ".

(** [_iterencode_list], [_iterencode_dict] and [_iterencode], with the
    chunks already joined.  The loops carry the [first] flag of the source
    and stop at the first element that raises. *)
Definition _iterencode_list (_iterencode : pyval -> outcome pystr)
  : list pyval -> bool -> outcome pystr :=
  fix each (lst : list pyval) (first : bool) : outcome pystr :=
    match lst with
    | [] => Returns []
    | value :: lst' =>
        match _iterencode value with
        | Raises e => Raises e
        | Returns chunks =>
            match each lst' false with
            | Raises e => Raises e
            | Returns more =>
                Returns ((if first then [] else item_separator)
                         ++ chunks ++ more)
            end
        end
    end.

Definition _iterencode_dict (_iterencode : pyval -> outcome pystr)
  : list (pyval * pyval) -> bool -> outcome pystr :=
  fix each (items : list (pyval * pyval)) (first : bool) : outcome pystr :=
    match items with
    | [] => Returns []
    | (key, value) :: items' =>
        match encode_key key with
        | Raises e => Raises e
        | Returns k =>
            match _iterencode value with
            | Raises e => Raises e
            | Returns chunks =>
                match each items' false with
                | Raises e => Raises e
                | Returns more =>
                    Returns ((if first then [] else item_separator)
                             ++ k ++ key_separator ++ chunks ++ more)
                end
            end
        end
    end.

Fixpoint _iterencode (o : pyval) : outcome pystr :=
  match o with
  | PyStr s => Returns (encode_basestring_ascii s)
  | PyNone => Returns (lit "null")
  | PyBool true => Returns (lit "true")
  | PyBool false => Returns (lit "false")
  | PyInt z => Returns (int_repr z)
  | PyList [] => Returns (lit "[]")
  | PyList lst =>
      match _iterencode_list _iterencode lst true with
      | Raises e => Raises e
      | Returns body => Returns (lit "[" ++ body ++ lit "]")
      end
  | PyDict [] => Returns (lit "{}")
  | PyDict dct =>
      match _iterencode_dict _iterencode dct true with
      | Raises e => Raises e
      | Returns body => Returns (lit "{" ++ body ++ lit "}")
      end
  | PyObject cls =>
      Raises (TypeError (lit "Object of type " ++ lit cls
                         ++ lit " is not JSON serializable"))
  end.

(** [json.dumps(obj)] *)
Definition dumps (obj : pyval) : outcome pystr := _iterencode obj.

(** *** Reading: [json.loads] with its defaults ([json.decoder] and
    [json.scanner], [strict=True], no hooks).  Numbers with a fraction or an
    exponent, [NaN] and [Infinity] would decode to floats and are rejected
    here, floats being outside [pyval]. *)

Local Notation "' p <- a ;; b" :=
  (match a with Some p => b | None => None end)
  (at level 61, p pattern, a at next level, right associativity).

Definition is_ws (c : N) : bool :=
  (c =? 32) || (c =? 9) || (c =? 10) || (c =? 13).

(** [WHITESPACE.match(s, end).end()] *)
Fixpoint skip_ws (s : pystr) : pystr :=
  match s with
  | c :: r => if is_ws c then skip_ws r else s
  | [] => []
  end.

Definition hex_value (c : N) : option N :=
  if (48 <=? c) && (c <=? 57) then Some (c - 48)
  else if (97 <=? c) && (c <=? 102) then Some (c - 87)
  else if (65 <=? c) && (c <=? 70) then Some (c - 55)
  else None.

(** [_decode_uXXXX]: the four hexadecimal digits after [\u]. *)
Definition decode_uXXXX (s : pystr) : option (N * pystr) :=
  match s with
  | a :: b :: c :: d :: r =>
      ' va <- hex_value a ;; ' vb <- hex_value b ;;
      ' vc <- hex_value c ;; ' vd <- hex_value d ;;
      Some (4096 * va + 256 * vb + 16 * vc + vd, r)
  | _ => None
  end.

(** The table [BACKSLASH] of one-letter escapes. *)
Definition unescape (esc : N) : option N :=
  if esc =? QUOTE then Some QUOTE
  else if esc =? BACKSLASH then Some BACKSLASH
  else if esc =? 47 then Some 47
  else if esc =? 98 then Some 8
  else if esc =? 102 then Some 12
  else if esc =? 110 then Some 10
  else if esc =? 114 then Some 13
  else if esc =? 116 then Some 9
  else None.

Definition is_high_surrogate (u : N) : bool := (55296 <=? u) && (u <=? 56319).
Definition is_low_surrogate (u : N) : bool := (56320 <=? u) && (u <=? 57343).

(** What follows [\u]: one code unit, or a surrogate pair joined into one
    code point. *)
Definition scan_unicode (s : pystr) : option (N * pystr) :=
  ' (uni, r) <- decode_uXXXX s ;;
  if is_high_surrogate uni then
    match r with
    | b :: u :: r' =>
        if (b =? BACKSLASH) && (u =? 117) then
          ' (uni2, r2) <- decode_uXXXX r' ;;
          if is_low_surrogate uni2 then
            Some (65536 + N.lor (N.shiftl (uni - 55296) 10) (uni2 - 56320), r2)
          else Some (uni, r)
        else Some (uni, r)
    | _ => Some (uni, r)
    end
  else Some (uni, r).

(** [py_scanstring], from the character after the opening quote: the decoded
    text and what follows the closing quote.  Every round consumes at least
    one character, so the length of the input is fuel enough. *)
Fixpoint scan_chars (fuel : nat) (s : pystr) : option (pystr * pystr) :=
  match fuel with
  | O => None
  | S fuel' =>
      match s with
      | [] => None
      | c :: r =>
          if c =? QUOTE then Some ([], r)
          else if c =? BACKSLASH then
            match r with
            | [] => None
            | esc :: r1 =>
                if esc =? 117 then
                  ' (ch, r2) <- scan_unicode r1 ;;
                  ' (text, rest) <- scan_chars fuel' r2 ;;
                  Some (ch :: text, rest)
                else
                  ' ch <- unescape esc ;;
                  ' (text, rest) <- scan_chars fuel' r1 ;;
                  Some (ch :: text, rest)
            end
          else if c <? 32 then None
          else
            ' (text, rest) <- scan_chars fuel' r ;;
            Some (c :: text, rest)
      end
  end.

Definition scanstring (s : pystr) : option (pystr * pystr) :=
  scan_chars (List.length s) s.

Definition is_digit (c : N) : bool := (48 <=? c) && (c <=? 57).

Fixpoint scan_digits (s : pystr) (acc : Z) : Z * pystr :=
  match s with
  | c :: r =>
      if is_digit c then scan_digits r (10 * acc + Z.of_N (c - 48))
      else (acc, s)
  | [] => (acc, [])
  end.

(** [NUMBER_RE]: the integer part; a fraction or exponent makes a float. *)
Definition scan_number (s : pystr) : option (pyval * pystr) :=
  let (neg, body) :=
    match s with
    | c :: r => if c =? 45 then (true, r) else (false, s)
    | [] => (false, s)
    end in
  match body with
  | d :: r =>
      if is_digit d then
        let (z, rest) := if d =? 48 then (0%Z, r) else scan_digits body 0 in
        match rest with
        | c :: _ =>
            if (c =? 46) || (c =? 101) || (c =? 69) then None
            else Some (PyInt (if neg then - z else z), rest)
        | [] => Some (PyInt (if neg then - z else z), rest)
        end
      else None
  | [] => None
  end.

Fixpoint pystr_eqb (a b : pystr) : bool :=
  match a, b with
  | [], [] => true
  | x :: a', y :: b' => (x =? y) && pystr_eqb a' b'
  | _, _ => false
  end.

(** [d[k] = v] on a dict kept in insertion order. *)
Fixpoint dict_set (d : list (pystr * pyval)) (k : pystr) (v : pyval)
  : list (pystr * pyval) :=
  match d with
  | [] => [(k, v)]
  | (k', v') :: d' =>
      if pystr_eqb k' k then (k', v) :: d' else (k', v') :: dict_set d' k v
  end.

(** [dict(pairs)] *)
Definition dict_of_pairs (pairs : list (pystr * pyval)) : list (pystr * pyval) :=
  fold_left (fun d kv => dict_set d (fst kv) (snd kv)) pairs [].

Definition mk_dict (pairs : list (pystr * pyval)) : pyval :=
  PyDict (map (fun kv => (PyStr (fst kv), snd kv)) (dict_of_pairs pairs)).

Definition starts_with (p s : pystr) : option pystr :=
  if pystr_eqb (firstn (List.length p) s) p then Some (skipn (List.length p) s) else None.

(** [scan_once] with [JSONObject] and [JSONArray].  [object_pairs] is the
    [while] loop of [JSONObject], entered after the opening quote of a key;
    [array_values] is the loop of [JSONArray], entered at a value. *)
Fixpoint scan_once (fuel : nat) (s : pystr) : option (pyval * pystr) :=
  match fuel with
  | O => None
  | S fuel' =>
      match s with
      | [] => None
      | c :: r =>
          if c =? QUOTE then
            ' (text, rest) <- scanstring r ;; Some (PyStr text, rest)
          else if c =? 123 then
            match skip_ws r with
            | c' :: r' =>
                if c' =? 125 then Some (PyDict [], r')
                else if c' =? QUOTE then object_pairs fuel' r' []
                else None
            | [] => None
            end
          else if c =? 91 then
            match skip_ws r with
            | c' :: r' =>
                if c' =? 93 then Some (PyList [], r')
                else array_values fuel' (c' :: r') []
            | [] => None
            end
          else
            match starts_with (lit "null") s with
            | Some rest => Some (PyNone, rest)
            | None =>
            match starts_with (lit "true") s with
            | Some rest => Some (PyBool true, rest)
            | None =>
            match starts_with (lit "false") s with
            | Some rest => Some (PyBool false, rest)
            | None => scan_number s
            end end end
      end
  end
with object_pairs (fuel : nat) (s : pystr) (pairs : list (pystr * pyval))
  : option (pyval * pystr) :=
  match fuel with
  | O => None
  | S fuel' =>
      ' (key, r) <- scanstring s ;;
      match skip_ws r with
      | c :: r1 =>
          if c =? 58 then
            ' (value, r2) <- scan_once fuel' (skip_ws r1) ;;
            let pairs' := pairs ++ [(key, value)] in
            match skip_ws r2 with
            | c2 :: r3 =>
                if c2 =? 125 then Some (mk_dict pairs', r3)
                else if c2 =? 44 then
                  match skip_ws r3 with
                  | q :: r4 =>
                      if q =? QUOTE then object_pairs fuel' r4 pairs' else None
                  | [] => None
                  end
                else None
            | [] => None
            end
          else None
      | [] => None
      end
  end
with array_values (fuel : nat) (s : pystr) (values : list pyval)
  : option (pyval * pystr) :=
  match fuel with
  | O => None
  | S fuel' =>
      ' (value, r) <- scan_once fuel' s ;;
      let values' := values ++ [value] in
      match skip_ws r with
      | c :: r1 =>
          if c =? 93 then Some (PyList values', r1)
          else if c =? 44 then array_values fuel' (skip_ws r1) values'
          else None
      | [] => None
      end
  end.

(** [json.loads(s)]: one value, white space around it, nothing after. *)
Definition loads (s : pystr) : option pyval :=
  ' (obj, rest) <- scan_once (S (List.length s)) (skip_ws s) ;;
  match skip_ws rest with
  | [] => Some obj
  | _ :: _ => None
  end.

End json.
Import json.

(* ================================================================= *)
(** ** Effects: standard output, the bus, exceptions *)

Module Py.

(** One method call put on the bus: the well-known name of the service, the
    member called and its single string argument. *)
Record dbus_call : Type :=
  { destination : pystr; member : pystr; argument : pystr }.

(** What a program leaves behind: the lines it printed and the calls it
    made, oldest first. *)
Record world : Type := { stdout : list pystr; dbus_calls : list dbus_call }.

(** The proxy object [bus.get(name)] gives.  The remote side is unknown: it
    answers a call, given every call made before it on this bus connection,
    with a value or with an error. *)
Record proxy : Type :=
  { bus_name : pystr;
    respond : list dbus_call -> pystr -> pystr -> outcome pyval }.

(** A connection to the system bus: [get] resolves a service name or raises. *)
Record bus : Type := { get : pystr -> outcome proxy }.

Section Monad.

(** [O] is the class of [self]: a method body reads and writes the
    attributes of [self], prints and calls, and returns or raises.  What
    it wrote before raising stays written. *)
Context {O : Type}.

Definition M (A : Type) : Type := O -> world -> outcome A * O * world.

Definition ret {A} (a : A) : M A := fun self w => (Returns a, self, w).

Definition raise {A} (e : exn) : M A := fun self w => (Raises e, self, w).

Definition bind {A B} (m : M A) (k : A -> M B) : M B :=
  fun self w =>
    match m self w with
    | (Returns a, self', w') => k a self' w'
    | (Raises e, self', w') => (Raises e, self', w')
    end.

(** An effect-free expression that may raise. *)
Definition eval {A} (r : outcome A) : M A := fun self w => (r, self, w).

(** [try: body except Exception as e: handler(e)] *)
Definition try_except {A} (body : M A) (handler : exn -> M A) : M A :=
  fun self w =>
    match body self w with
    | (Returns a, self', w') => (Returns a, self', w')
    | (Raises e, self', w') => handler e self' w'
    end.

(** [print(line)] *)
Definition print (line : pystr) : M unit :=
  fun self w =>
    (Returns tt, self,
     {| stdout := stdout w ++ [line]; dbus_calls := dbus_calls w |}).

(** [self.attr], for an attribute that may not have been assigned. *)
Definition getattr {A} (cls attr : string) (field : O -> option A) : M A :=
  fun self w =>
    match field self with
    | Some a => (Returns a, self, w)
    | None =>
        (Raises (AttributeError
                   (lit "'" ++ lit cls ++ lit "' object has no attribute '"
                    ++ lit attr ++ lit "'")),
         self, w)
    end.

(** [self.attr = a] *)
Definition setattr (update : O -> O) : M unit :=
  fun self w => (Returns tt, update self, w).

(** [service.Member(arg)]: the call goes on the bus and the remote side
    answers. *)
Definition call (service : proxy) (name : pystr) (arg : pystr) : M pyval :=
  fun self w =>
    (respond service (dbus_calls w) name arg, self,
     {| stdout := stdout w;
        dbus_calls := dbus_calls w ++
          [{| destination := bus_name service; member := name;
              argument := arg |}] |}).

End Monad.
Arguments M : clear implicits.

Declare Scope py_scope.
Delimit Scope py_scope with py.
Notation "x <- m ;; k" := (bind m (fun x => k))
  (at level 61, m at next level, right associativity) : py_scope.
Notation "m ;; k" := (bind m (fun _ => k))
  (at level 61, right associativity) : py_scope.

(** The three parts of a run. *)
Definition result {O A} (r : outcome A * O * world) : outcome A := fst (fst r).
Definition object {O A} (r : outcome A * O * world) : O := snd (fst r).
Definition effects {O A} (r : outcome A * O * world) : world := snd r.

(** [Class()]: a fresh object, then [__init__] on it. *)
Definition construct {O} (blank : O) (init : M O unit) (w : world)
  : outcome O * world :=
  match init blank w with
  | (Returns _, self, w') => (Returns self, w')
  | (Raises e, _, w') => (Raises e, w')
  end.

End Py.
Import Py.

(* ================================================================= *)
(** ** The SDK *)

Module Edgeberry.
Open Scope py_scope.

(** Edgeberry Core D-Bus *)
Definition EDGEBERRY_SERVICE : pystr := lit "io.edgeberry.Core".
Definition EDGEBERRY_OBJECT : pystr := lit "io/edgeberry/Core".
Definition EDGEBERRY_INTERFACE : pystr := lit "io.edgeberry.Core".

(** An instance of [class Edgeberry]: each attribute is there once
    [__init__] has assigned it. *)
Record t : Type :=
  { bus : option Py.bus; edgeberry_core_service : option proxy }.

Definition blank : t := {| bus := None; edgeberry_core_service := None |}.

Definition self_bus : M t Py.bus := getattr "Edgeberry" "bus" bus.
Definition self_edgeberry_core_service : M t proxy :=
  getattr "Edgeberry" "edgeberry_core_service" edgeberry_core_service.

(** [Edgeberry.__init__], edgeberry.py lines 15-23. *)
Definition __init__ (SystemBus : outcome Py.bus) : M t unit :=
  try_except
    ((* Connect to the D-Bus system bus *)
     b <- eval SystemBus ;;
     setattr (fun self => {| bus := Some b;
                             edgeberry_core_service :=
                               edgeberry_core_service self |}) ;;
     (* Connect to the Edgeberry Core service *)
     b <- self_bus ;;
     service <- eval (get b EDGEBERRY_SERVICE) ;;
     setattr (fun self => {| bus := bus self;
                             edgeberry_core_service := Some service |}))
    (fun e =>
       print (lit "Edgeberry: error connecting to Edgeberry D-Bus: "
              ++ exn_str e) ;;
       ret tt).

(** [Edgeberry()] *)
Definition Edgeberry (SystemBus : outcome Py.bus) : world -> outcome t * world :=
  construct blank (__init__ SystemBus).

(** Set application info: edgeberry.py lines 26-44. *)
Definition set_application_info (name version description : pyval)
  : M t pyval :=
  try_except
    ((* Create dictionary *)
     let application_info :=
       PyDict [(PyStr (lit "name"), name);
               (PyStr (lit "version"), version);
               (PyStr (lit "description"), description)] in
     (* Convert dictionary to JSON string *)
     application_info_json <- eval (json.dumps application_info) ;;
     service <- self_edgeberry_core_service ;;
     call service (lit "SetApplicationInfo") application_info_json)
    (fun e =>
       (* Print the error message *)
       print (lit "Edgeberry: error setting status: " ++ exn_str e) ;;
       ret PyNone).

(** edgeberry.py lines 46-62. *)
Definition set_status (level message : pyval) : M t pyval :=
  try_except
    ((* Create dictionary *)
     let status :=
       PyDict [(PyStr (lit "level"), level);
               (PyStr (lit "message"), message)] in
     (* Convert dictionary to JSON string *)
     status_json <- eval (json.dumps status) ;;
     service <- self_edgeberry_core_service ;;
     call service (lit "SetApplicationStatus") status_json)
    (fun e =>
       (* Print the error message *)
       print (lit "Edgeberry: error setting status: " ++ exn_str e) ;;
       ret PyNone).

End Edgeberry.

Module EdgeberryCloudConnect.
Open Scope py_scope.

Definition EDGEBERRY_SERVICE : pystr := lit "io.edgeberry.CloudConnect".
Definition EDGEBERRY_OBJECT : pystr := lit "io/edgeberry/CloudConnect".
Definition EDGEBERRY_INTERFACE : pystr := lit "io.edgeberry.CloudConnect".

(** An instance of [class EdgeberryCloudConnect]. *)
Record t : Type :=
  { bus : option Py.bus; edgeberry_cloudconnect_service : option proxy }.

Definition blank : t :=
  {| bus := None; edgeberry_cloudconnect_service := None |}.

Definition self_bus : M t Py.bus := getattr "EdgeberryCloudConnect" "bus" bus.
Definition self_edgeberry_cloudconnect_service : M t proxy :=
  getattr "EdgeberryCloudConnect" "edgeberry_cloudconnect_service"
    edgeberry_cloudconnect_service.

(** [EdgeberryCloudConnect.__init__], edgeberry_cloudconnect.py lines
    15-23. *)
Definition __init__ (SystemBus : outcome Py.bus) : M t unit :=
  try_except
    ((* Connect to the D-Bus system bus *)
     b <- eval SystemBus ;;
     setattr (fun self => {| bus := Some b;
                             edgeberry_cloudconnect_service :=
                               edgeberry_cloudconnect_service self |}) ;;
     (* Connect to the Edgeberry Core service *)
     b <- self_bus ;;
     service <- eval (get b EDGEBERRY_SERVICE) ;;
     setattr (fun self => {| bus := bus self;
                             edgeberry_cloudconnect_service := Some service |}))
    (fun e =>
       print (lit "CloudConnect: error connecting to Edgeberry Cloud Connect D-Bus API: "
              ++ exn_str e) ;;
       ret tt).

(** [EdgeberryCloudConnect()] *)
Definition EdgeberryCloudConnect (SystemBus : outcome Py.bus)
  : world -> outcome t * world :=
  construct blank (__init__ SystemBus).

(** edgeberry_cloudconnect.py lines 25-40. *)
Definition send_message (message : pyval) : M t pyval :=
  try_except
    ((* Create dictionary *)
     let messaged := PyDict [(PyStr (lit "message"), message)] in
     (* Convert dictionary to JSON string *)
     messaged_json <- eval (json.dumps messaged) ;;
     service <- self_edgeberry_cloudconnect_service ;;
     call service (lit "SendMessage") messaged_json)
    (fun e =>
       (* Print the error message *)
       print (lit "CloudConnect: error sending message: " ++ exn_str e) ;;
       ret PyNone).

End EdgeberryCloudConnect.

(** [main] of example.py (lines 4-10), on a host where [SystemBus()] behaves
    as [SystemBus]. *)
Definition main (SystemBus : outcome bus) (w : world) : outcome unit * world :=
  match Edgeberry.Edgeberry SystemBus w with
  | (Raises e, w) => (Raises e, w)
  | (Returns edgeberry, w) =>
  match Edgeberry.set_application_info
          (PyStr (lit "example")) (PyStr (lit "v3.2.1"))
          (PyStr (lit "Edgeberry application example")) edgeberry w with
  | (Raises e, _, w) => (Raises e, w)
  | (Returns _, edgeberry, w) =>
  match Edgeberry.set_status (PyStr (lit "ok")) (PyStr (lit "blub"))
          edgeberry w with
  | (Raises e, _, w) => (Raises e, w)
  | (Returns _, _, w) =>
  match EdgeberryCloudConnect.EdgeberryCloudConnect SystemBus w with
  | (Raises e, w) => (Raises e, w)
  | (Returns cloudConnect, w) =>
  match EdgeberryCloudConnect.send_message (PyStr (lit "test message"))
          cloudConnect w with
  | (Raises e, _, w) => (Raises e, w)
  | (Returns _, _, w) => (Returns tt, w)
  end end end end end.


(* ================================================================= *)
(** ** The vocabulary of the properties *)

Module JsonSpec.

(** A Unicode scalar value: a code point that is not a surrogate.  Every
    printable character is one. *)
Definition scalar (c : N) : bool :=
  (c <? 55296) || ((57344 <=? c) && (c <=? 1114111)).

Definition scalar_str (s : pystr) : Prop := Forall (fun c => scalar c = true) s.

(** A Python [str] has code points up to U+10FFFF; it is [unpaired] when no
    high surrogate stands directly before a low surrogate. *)
Definition code_point (c : N) : bool := c <=? 1114111.

Fixpoint unpaired (s : pystr) : bool :=
  match s with
  | [] => true
  | a :: r =>
      match r with
      | [] => true
      | b :: _ => negb (is_high_surrogate a && is_low_surrogate b)
      end && unpaired r
  end.

Definition stable_str (s : pystr) : Prop :=
  Forall (fun c => code_point c = true) s /\ unpaired s = true.

(** The look-ahead of [scan_unicode] after a high surrogate finds a second
    [\u] escape that it joins to it (or cannot read). *)
Definition joins_low (r : pystr) : bool :=
  match r with
  | b :: u :: r' =>
      (b =? BACKSLASH) && (u =? 117) &&
      match decode_uXXXX r' with
      | Some (uni2, _) => is_low_surrogate uni2
      | None => true
      end
  | _ => false
  end.

(** [py_scanstring] reads the escaped form of [s] back as [s], whatever
    follows the closing quote. *)
Definition readable (s : pystr) : Prop :=
  forall rest, scanstring (escape s ++ QUOTE :: rest) = Some (s, rest).

Definition readable_items (kvs : list (pystr * pystr)) : Prop :=
  Forall (fun kv => readable (fst kv) /\ readable (snd kv)) kvs.

(** A dict whose keys and values are all strings, as a Python object. *)
Definition str_dict (kvs : list (pystr * pystr)) : pyval :=
  PyDict (map (fun kv => (PyStr (fst kv), PyStr (snd kv))) kvs).

(** The text of the members of such a dict. *)
Fixpoint members (first : bool) (kvs : list (pystr * pystr)) : pystr :=
  match kvs with
  | [] => []
  | (k, v) :: kvs' =>
      (if first then [] else item_separator)
      ++ encode_basestring_ascii k ++ key_separator
      ++ encode_basestring_ascii v ++ members false kvs'
  end.

(** The same text, one character at a time, from the first key on. *)
Fixpoint member_text (k v : pystr) (kvs : list (pystr * pystr)) (rest : pystr)
  : pystr :=
  escape k ++ QUOTE :: 58 :: 32 :: QUOTE :: escape v ++ QUOTE ::
  match kvs with
  | [] => 125 :: rest
  | (k', v') :: kvs' => 44 :: 32 :: QUOTE :: member_text k' v' kvs' rest
  end.

Definition str_values (kvs : list (pystr * pystr)) : list (pystr * pyval) :=
  map (fun kv => (fst kv, PyStr (snd kv))) kvs.

End JsonSpec.
Import JsonSpec.

Module SdkSpec.
Open Scope py_scope.

(** *** The shape the three public methods share *)

Section Request.

Context {O : Type}.
Variables (cls attr : string) (field : O -> option proxy).
Variables (prefix operation : pystr) (record : pyval).

Definition request : M O pyval :=
  try_except
    (json_text <- eval (json.dumps record) ;;
     service <- getattr cls attr field ;;
     call service operation json_text)
    (fun e => print (prefix ++ exn_str e) ;; ret PyNone).

(** What [self.attr] raises when [__init__] never assigned [attr]. *)
Definition no_attribute : exn :=
  AttributeError (lit "'" ++ lit cls ++ lit "' object has no attribute '"
                  ++ lit attr ++ lit "'").

(** The three ways the [try] body fails, in the order it runs: the
    encoding raises; there is no service handle on [self]; the remote
    call raises. *)
Inductive fails (self : O) (w : world) : exn -> Prop :=
| fails_encoding e :
    json.dumps record = Raises e -> fails self w e
| fails_no_handle text :
    json.dumps record = Returns text -> field self = None ->
    fails self w no_attribute
| fails_remote text service e :
    json.dumps record = Returns text -> field self = Some service ->
    respond service (dbus_calls w) operation text = Raises e ->
    fails self w e.

(** What a run of the method leaves on standard output and on the bus. *)
Definition printed (w : world) (e : exn) : world :=
  {| stdout := stdout w ++ [prefix ++ exn_str e];
     dbus_calls := dbus_calls w |}.

Definition sent (w : world) (service : proxy) (text : pystr) : world :=
  {| stdout := stdout w;
     dbus_calls := dbus_calls w ++
       [{| destination := bus_name service; member := operation;
           argument := text |}] |}.

(** The method keeps every failure to itself: it never raises; a failure
    is printed and answered with [None]; and [None] is also what it
    returns when the remote side answers [None]. *)
Definition fail_safe (method : M O pyval) : Prop :=
  forall self w,
    raised (result (method self w)) = false /\
    (forall e, fails self w e ->
       result (method self w) = Returns PyNone /\
       stdout (effects (method self w))
       = stdout w ++ [prefix ++ exn_str e]) /\
    (forall text service,
       json.dumps record = Returns text -> field self = Some service ->
       respond service (dbus_calls w) operation text = Returns PyNone ->
       result (method self w) = Returns PyNone).

End Request.

(** The dicts the methods build. *)
Definition application_info (name version description : pyval) : pyval :=
  PyDict [(PyStr (lit "name"), name);
          (PyStr (lit "version"), version);
          (PyStr (lit "description"), description)].

Definition status (level message : pyval) : pyval :=
  PyDict [(PyStr (lit "level"), level); (PyStr (lit "message"), message)].

Definition messaged (message : pyval) : pyval :=
  PyDict [(PyStr (lit "message"), message)].

(** The error [__init__] meets, if any: [SystemBus()] raises, or the bus is
    there and [bus.get] raises for the service name. *)
Definition connection_error (name : pystr) (SystemBus : outcome bus)
  : option exn :=
  match SystemBus with
  | Raises e => Some e
  | Returns b =>
      match get b name with
      | Raises e => Some e
      | Returns _ => None
      end
  end.


(** The text of each dict, for string fields. *)
Definition application_info_text (name version description : pystr) : pystr :=
  lit "{" ++ quoted "name" ++ lit ": " ++ encode_basestring_ascii name
  ++ lit ", " ++ quoted "version" ++ lit ": "
  ++ encode_basestring_ascii version
  ++ lit ", " ++ quoted "description" ++ lit ": "
  ++ encode_basestring_ascii description ++ lit "}".

Definition status_text (level message : pystr) : pystr :=
  lit "{" ++ quoted "level" ++ lit ": " ++ encode_basestring_ascii level
  ++ lit ", " ++ quoted "message" ++ lit ": "
  ++ encode_basestring_ascii message ++ lit "}".

Definition messaged_text (message : pystr) : pystr :=
  lit "{" ++ quoted "message" ++ lit ": " ++ encode_basestring_ascii message
  ++ lit "}".




End SdkSpec.
Import SdkSpec.

(** *** Hosts and inputs for the examples *)

(** Nothing printed, nothing called yet. *)
Definition nothing : world := {| stdout := []; dbus_calls := [] |}.

(** A service that answers every call with [None]. *)
Definition quiet (name : pystr) : proxy :=
  {| bus_name := name; respond := fun _ _ _ => Returns PyNone |}.

(** A service that answers every call with an error. *)
Definition remote_error : exn :=
  Exn "GLib.Error" (lit "g-dbus-error-quark: No such method (19)").
Definition failing (name : pystr) : proxy :=
  {| bus_name := name; respond := fun _ _ _ => Raises remote_error |}.

(** A bus on which every service name resolves. *)
Definition session : bus := {| get := fun name => Returns (quiet name) |}.

(** What [SystemBus()] raises on a host without a system bus. *)
Definition bus_down : exn :=
  Exn "GLib.Error"
    (lit "g-io-error-quark: Could not connect: No such file or directory (1)").

(** A bus on which no service name resolves. *)
Definition service_unknown : exn :=
  Exn "GLib.Error"
    (lit "g-dbus-error-quark: The name is not activatable (2)").
Definition empty_bus : bus := {| get := fun _ => Raises service_unknown |}.

Definition example_name : pystr := lit "example".
Definition example_version : pystr := lit "v3.2.1".
Definition example_description : pystr := lit "Edgeberry application example".

(** The argument as the specification prints it, without white space. *)
Definition example_compact : pystr :=
  lit "{" ++ quoted "name" ++ lit ":" ++ quoted "example" ++ lit ","
  ++ quoted "version" ++ lit ":" ++ quoted "v3.2.1" ++ lit ","
  ++ quoted "description" ++ lit ":"
  ++ quoted "Edgeberry application example" ++ lit "}".

(** The argument with the separators of [json.dumps]: a space after every
    colon and every comma. *)
Definition example_text : pystr :=
  lit "{" ++ quoted "name" ++ lit ": " ++ quoted "example" ++ lit ", "
  ++ quoted "version" ++ lit ": " ++ quoted "v3.2.1" ++ lit ", "
  ++ quoted "description" ++ lit ": "
  ++ quoted "Edgeberry application example" ++ lit "}".

(** A message with a quote, a backslash, a line feed, an accented letter
    and a code point above the basic plane. *)
Definition awkward : pystr := [34; 92; 10; 233; 128512].

(* ================================================================= *)
(** ** Facts about the JSON text *)

Module JsonFacts.

Lemma hex_value_hex_digit d : d < 16 -> hex_value (hex_digit d) = Some d.
Proof.
  intros H. unfold hex_digit, hex_value.
  destruct (N.ltb_spec d 10).
  - replace ((48 <=? 48 + d) && (48 + d <=? 57)) with true
      by (symmetry; apply andb_true_iff; split; apply N.leb_le; lia).
    f_equal. lia.
  - replace ((48 <=? 87 + d) && (87 + d <=? 57)) with false
      by (symmetry; apply andb_false_iff; right; apply N.leb_gt; lia).
    replace ((97 <=? 87 + d) && (87 + d <=? 102)) with true
      by (symmetry; apply andb_true_iff; split; apply N.leb_le; lia).
    f_equal. lia.
Qed.

Lemma nibble_lt a : N.land a 15 < 16.
Proof.
  change 15 with (N.ones 4). rewrite N.land_ones.
  apply N.mod_lt. discriminate.
Qed.

Lemma nibbles n :
  n < 65536 ->
  4096 * N.shiftr n 12 + 256 * N.land (N.shiftr n 8) 15
  + 16 * N.land (N.shiftr n 4) 15 + N.land n 15 = n /\ N.shiftr n 12 < 16.
Proof.
  intros H. change 15 with (N.ones 4).
  rewrite !N.land_ones, !N.shiftr_div_pow2.
  change (2 ^ 12) with 4096. change (2 ^ 8) with 256.
  change (2 ^ 4) with 16.
  pose proof (N.div_mod n 16 ltac:(discriminate)).
  pose proof (N.mod_lt n 16 ltac:(discriminate)).
  pose proof (N.div_mod (n / 16) 16 ltac:(discriminate)).
  pose proof (N.mod_lt (n / 16) 16 ltac:(discriminate)).
  pose proof (N.div_mod (n / 256) 16 ltac:(discriminate)).
  pose proof (N.mod_lt (n / 256) 16 ltac:(discriminate)).
  assert (E1 : n / 16 / 16 = n / 256) by (rewrite N.Div0.div_div; reflexivity).
  assert (E2 : n / 256 / 16 = n / 4096) by (rewrite N.Div0.div_div; reflexivity).
  rewrite E1 in *. rewrite E2 in *.
  generalize dependent (n / 4096). generalize dependent ((n / 256) mod 16).
  generalize dependent (n / 256). generalize dependent ((n / 16) mod 16).
  generalize dependent (n / 16). generalize dependent (n mod 16).
  intros. split; lia.
Qed.

Lemma decode_format_04x n r :
  n < 65536 -> decode_uXXXX (format_04x n ++ r) = Some (n, r).
Proof.
  intros H. unfold format_04x.
  destruct (N.ltb_spec n 65536); [|lia].
  destruct (nibbles n H) as [E Htop].
  cbn [app decode_uXXXX].
  rewrite !hex_value_hex_digit by (apply nibble_lt || assumption).
  rewrite E. reflexivity.
Qed.

(** *** Surrogate pairs *)

Lemma land_shiftl_low a b k : b < 2 ^ k -> N.land (N.shiftl a k) b = 0.
Proof.
  intros H. apply N.bits_inj. intros i.
  rewrite N.land_spec, N.bits_0.
  destruct (N.lt_ge_cases i k) as [Hlt | Hge].
  - rewrite N.shiftl_spec_low by assumption. reflexivity.
  - rewrite <- (N.mod_small b (2 ^ k)) by assumption.
    rewrite N.mod_pow2_bits_high by assumption. apply andb_false_r.
Qed.

Lemma lor_shiftl_low a b k : b < 2 ^ k -> N.lor (N.shiftl a k) b = a * 2 ^ k + b.
Proof.
  intros H. rewrite <- N.lxor_lor by (apply land_shiftl_low; assumption).
  rewrite <- N.add_nocarry_lxor by (apply land_shiftl_low; assumption).
  rewrite N.shiftl_mul_pow2. reflexivity.
Qed.

(** The two code units the encoder writes for a code point above the basic
    plane, and what the decoder makes of them. *)
Lemma surrogate_pair c :
  65536 <= c -> c <= 1114111 ->
  let n := c - 65536 in
  let s1 := N.lor 55296 (N.land (N.shiftr n 10) 1023) in
  let s2 := N.lor 56320 (N.land n 1023) in
  s1 < 65536 /\ s2 < 65536 /\
  is_high_surrogate s1 = true /\ is_low_surrogate s2 = true /\
  65536 + N.lor (N.shiftl (s1 - 55296) 10) (s2 - 56320) = c.
Proof.
  intros Hlo Hhi n s1 s2.
  assert (Hn : n < 1048576) by (unfold n; lia).
  assert (Hq : N.land (N.shiftr n 10) 1023 = n / 1024).
  { change 1023 with (N.ones 10). rewrite N.land_ones, N.shiftr_div_pow2.
    change (2 ^ 10) with 1024. apply N.mod_small.
    apply N.Div0.div_lt_upper_bound. exact Hn. }
  assert (Hr : N.land n 1023 = n mod 1024).
  { change 1023 with (N.ones 10). rewrite N.land_ones. reflexivity. }
  assert (Hq' : n / 1024 < 1024)
    by (apply N.Div0.div_lt_upper_bound; exact Hn).
  assert (Hr' : n mod 1024 < 1024) by (apply N.mod_lt; discriminate).
  assert (E1 : s1 = 55296 + n / 1024).
  { unfold s1. rewrite Hq. change 55296 with (N.shiftl 54 10) at 1.
    rewrite lor_shiftl_low by exact Hq'. reflexivity. }
  assert (E2 : s2 = 56320 + n mod 1024).
  { unfold s2. rewrite Hr. change 56320 with (N.shiftl 55 10) at 1.
    rewrite lor_shiftl_low by exact Hr'. reflexivity. }
  assert (E3 : N.lor (N.shiftl (s1 - 55296) 10) (s2 - 56320)
               = (n / 1024) * 1024 + n mod 1024).
  { replace (s1 - 55296) with (n / 1024) by lia.
    replace (s2 - 56320) with (n mod 1024) by lia.
    apply lor_shiftl_low. exact Hr'. }
  pose proof (N.div_mod n 1024 ltac:(discriminate)) as Hdm.
  rewrite E3. unfold is_high_surrogate, is_low_surrogate.
  rewrite E1, E2.
  generalize dependent (n / 1024). generalize dependent (n mod 1024).
  intros r Hr0 Hr' E2 q Hq0 Hq' E1 E3 Hdm.
  unfold n in Hdm.
  repeat split; try (apply andb_true_iff; split; apply N.leb_le); lia.
Qed.

(** The code units of a surrogate pair fit four hexadecimal digits,
    whatever the code point. *)
Lemma surrogate_units n :
  N.lor 55296 (N.land (N.shiftr n 10) 1023) < 65536 /\
  N.lor 56320 (N.land n 1023) < 65536.
Proof.
  assert (H : forall x, N.land x 1023 < 1024).
  { intros x. change 1023 with (N.ones 10). rewrite N.land_ones.
    apply N.mod_lt. discriminate. }
  split.
  - change 55296 with (N.shiftl 54 10).
    rewrite lor_shiftl_low by apply H.
    pose proof (H (N.shiftr n 10)). change (2 ^ 10) with 1024. lia.
  - change 56320 with (N.shiftl 55 10).
    rewrite lor_shiftl_low by apply H.
    pose proof (H n). change (2 ^ 10) with 1024. lia.
Qed.

Lemma high_unit n :
  is_low_surrogate (N.lor 55296 (N.land (N.shiftr n 10) 1023)) = false.
Proof.
  assert (H : N.land (N.shiftr n 10) 1023 < 1024).
  { change 1023 with (N.ones 10). rewrite N.land_ones.
    apply N.mod_lt. discriminate. }
  change 55296 with (N.shiftl 54 10). rewrite lor_shiftl_low by exact H.
  change (2 ^ 10) with 1024. unfold is_low_surrogate.
  apply andb_false_iff. left. apply N.leb_gt. lia.
Qed.

(** *** Reading back an escaped string *)

Lemma scan_unicode_single c r :
  c < 65536 -> (is_high_surrogate c = true -> joins_low r = false) ->
  scan_unicode (format_04x c ++ r) = Some (c, r).
Proof.
  intros H Hj. unfold scan_unicode.
  rewrite decode_format_04x by assumption.
  destruct (is_high_surrogate c); [|reflexivity].
  specialize (Hj eq_refl).
  destruct r as [|b [|u r']]; try reflexivity.
  unfold joins_low in Hj.
  destruct ((b =? BACKSLASH) && (u =? 117)); [|reflexivity].
  cbn [andb] in Hj.
  destruct (decode_uXXXX r') as [[uni2 r2]|]; [|discriminate Hj].
  rewrite Hj. reflexivity.
Qed.

Lemma scan_unicode_pair s1 s2 r :
  s1 < 65536 -> s2 < 65536 ->
  is_high_surrogate s1 = true -> is_low_surrogate s2 = true ->
  scan_unicode (format_04x s1 ++ lit "\u" ++ format_04x s2 ++ r)
  = Some (65536 + N.lor (N.shiftl (s1 - 55296) 10) (s2 - 56320), r).
Proof.
  intros H1 H2 Hh Hl. unfold scan_unicode.
  rewrite decode_format_04x by assumption. rewrite Hh.
  cbn [lit list_ascii_of_string map app].
  change ((N_of_ascii "\" =? BACKSLASH) && (N_of_ascii "u" =? 117)) with true.
  cbv iota.
  rewrite decode_format_04x by assumption. rewrite Hl. reflexivity.
Qed.

Lemma joins_low_quote rest : joins_low (QUOTE :: rest) = false.
Proof. destruct rest; reflexivity. Qed.

(** What the encoder writes for a code point that is not a low surrogate
    is never taken for the second half of a pair. *)
Lemma joins_low_escape_ascii d tail :
  is_low_surrogate d = false -> joins_low (escape_ascii d ++ tail) = false.
Proof.
  intros Hd. unfold escape_ascii.
  destruct (N.eqb_spec d BACKSLASH) as [-> | Hb]; [reflexivity|].
  destruct (N.eqb_spec d QUOTE) as [-> | Hq]; [reflexivity|].
  destruct ((32 <=? d) && (d <=? 126)).
  { cbn [app]. destruct tail as [|u r']; [reflexivity|].
    unfold joins_low. destruct (N.eqb_spec d BACKSLASH); [contradiction|].
    reflexivity. }
  destruct (d =? 8); [reflexivity|].
  destruct (d =? 12); [reflexivity|].
  destruct (d =? 10); [reflexivity|].
  destruct (d =? 13); [reflexivity|].
  destruct (d =? 9); [reflexivity|].
  destruct (N.ltb_spec d 65536) as [Hlt | Hge].
  - rewrite <- app_assoc.
    change (lit "\u" ++ format_04x d ++ tail)
      with (92 :: 117 :: format_04x d ++ tail).
    unfold joins_low. rewrite decode_format_04x by assumption.
    rewrite Hd. reflexivity.
  - destruct (surrogate_units (d - 65536)) as [H1 _].
    rewrite <- !app_assoc.
    match goal with
    | |- joins_low (lit "\u" ++ ?x) = _ =>
        change (lit "\u" ++ x) with (92 :: 117 :: x)
    end.
    unfold joins_low. rewrite decode_format_04x by exact H1.
    rewrite high_unit. reflexivity.
Qed.

(** One code point: whatever [escape_ascii] writes for it, a round of
    [scan_chars] reads it back and goes on with what follows, unless it is
    a high surrogate that the look-ahead joins to what follows. *)
Lemma scan_chars_escape_ascii c fuel r text rest :
  code_point c = true ->
  (is_high_surrogate c = true -> joins_low r = false) ->
  scan_chars fuel r = Some (text, rest) ->
  scan_chars (S fuel) (escape_ascii c ++ r) = Some (c :: text, rest).
Proof.
  intros Hc Hj Hr. unfold escape_ascii.
  destruct (N.eqb_spec c BACKSLASH) as [-> | Hb].
  { cbn. rewrite Hr. reflexivity. }
  destruct (N.eqb_spec c QUOTE) as [-> | Hq].
  { cbn. rewrite Hr. reflexivity. }
  destruct ((32 <=? c) && (c <=? 126)) eqn:Hp.
  { apply andb_true_iff in Hp. destruct Hp as [Hp1 Hp2].
    apply N.leb_le in Hp1.
    cbn [app scan_chars].
    destruct (N.eqb_spec c QUOTE); [contradiction|].
    destruct (N.eqb_spec c BACKSLASH); [contradiction|].
    destruct (N.ltb_spec c 32); [lia|].
    rewrite Hr. reflexivity. }
  destruct (N.eqb_spec c 8) as [-> | H8].
  { cbn. rewrite Hr. reflexivity. }
  destruct (N.eqb_spec c 12) as [-> | H12].
  { cbn. rewrite Hr. reflexivity. }
  destruct (N.eqb_spec c 10) as [-> | H10].
  { cbn. rewrite Hr. reflexivity. }
  destruct (N.eqb_spec c 13) as [-> | H13].
  { cbn. rewrite Hr. reflexivity. }
  destruct (N.eqb_spec c 9) as [-> | H9].
  { cbn. rewrite Hr. reflexivity. }
  destruct (N.ltb_spec c 65536) as [Hlt | Hge].
  - rewrite <- app_assoc.
    change (lit "\u" ++ format_04x c ++ r)
      with (92 :: 117 :: format_04x c ++ r).
    cbn [scan_chars].
    change (92 =? QUOTE) with false. change (92 =? BACKSLASH) with true.
    change (117 =? 117) with true. cbv iota.
    rewrite scan_unicode_single by assumption.
    rewrite Hr. reflexivity.
  - apply N.leb_le in Hc.
    destruct (surrogate_pair c Hge Hc) as (H1 & H2 & Hh & Hl & E).
    rewrite <- !app_assoc.
    match goal with
    | |- scan_chars _ (lit "\u" ++ ?x) = _ =>
        change (lit "\u" ++ x) with (92 :: 117 :: x)
    end.
    cbn [scan_chars].
    change (92 =? QUOTE) with false. change (92 =? BACKSLASH) with true.
    change (117 =? 117) with true. cbv iota.
    rewrite scan_unicode_pair by assumption.
    rewrite Hr. rewrite E. reflexivity.
Qed.

Lemma escape_ascii_length c : (1 <= List.length (escape_ascii c))%nat.
Proof.
  unfold escape_ascii.
  repeat match goal with
         | |- context [if ?b then _ else _] => destruct b
         end;
    try match goal with
        | |- context [lit "\u" ++ ?x] => change (lit "\u" ++ x) with (92 :: 117 :: x)
        end;
    cbn [List.length lit list_ascii_of_string map]; lia.
Qed.

Lemma escape_length s : (List.length s <= List.length (escape s))%nat.
Proof.
  unfold escape. induction s as [|c s IH]; cbn [flat_map List.length]; [lia|].
  rewrite length_app. pose proof (escape_ascii_length c). lia.
Qed.

(** A string of code points without a surrogate pair is read back as it
    was written. *)
Lemma scan_chars_escape s rest :
  Forall (fun c => code_point c = true) s ->
  forall fuel,
    unpaired s = true -> (List.length s < fuel)%nat ->
    scan_chars fuel (escape s ++ QUOTE :: rest) = Some (s, rest).
Proof.
  induction 1 as [|c s Hc Hs IH]; intros fuel Hu Hf.
  - destruct fuel; [inversion Hf|]. reflexivity.
  - destruct fuel; [inversion Hf|].
    cbn [unpaired] in Hu. apply andb_true_iff in Hu. destruct Hu as [Hcd Hu].
    cbn [escape flat_map]. rewrite <- app_assoc.
    apply scan_chars_escape_ascii; [exact Hc | |].
    + intros Hh. destruct s as [|d s'].
      * apply joins_low_quote.
      * cbn [flat_map]. rewrite <- app_assoc.
        apply joins_low_escape_ascii.
        rewrite Hh in Hcd. cbn [andb] in Hcd.
        apply negb_true_iff in Hcd. exact Hcd.
    + apply IH; [exact Hu | cbn in Hf; lia].
Qed.

Lemma stable_readable s : stable_str s -> readable s.
Proof.
  intros [Hc Hu] rest. unfold scanstring.
  apply scan_chars_escape; [exact Hc | exact Hu |].
  rewrite length_app. pose proof (escape_length s). cbn. lia.
Qed.

(** Scalar values are code points, and none of them is a surrogate. *)
Lemma scalar_stable s : scalar_str s -> stable_str s.
Proof.
  assert (Hh : forall c, scalar c = true -> is_high_surrogate c = false).
  { intros c H. unfold scalar in H. unfold is_high_surrogate.
    apply orb_true_iff in H. apply andb_false_iff.
    destruct H as [H | H].
    - apply N.ltb_lt in H. left. apply N.leb_gt. lia.
    - apply andb_true_iff in H. destruct H as [H _]. apply N.leb_le in H.
      right. apply N.leb_gt. lia. }
  induction 1 as [|c s Hc Hs [IHc IHu]]; [split; [constructor | reflexivity]|].
  split.
  - constructor; [|exact IHc]. unfold scalar in Hc. unfold code_point.
    apply N.leb_le. apply orb_true_iff in Hc. destruct Hc as [H | H].
    + apply N.ltb_lt in H. lia.
    + apply andb_true_iff in H. destruct H as [_ H]. apply N.leb_le in H. lia.
  - cbn [unpaired]. rewrite IHu, (Hh c Hc).
    destruct s; reflexivity.
Qed.

Lemma scalar_readable s : scalar_str s -> readable s.
Proof. intros Hs. apply stable_readable, scalar_stable, Hs. Qed.

(** *** Dicts of strings *)

Lemma iterencode_dict_str kvs first :
  _iterencode_dict _iterencode
    (map (fun kv => (PyStr (fst kv), PyStr (snd kv))) kvs) first
  = Returns (members first kvs).
Proof.
  revert first. induction kvs as [|[k v] kvs IH]; intros first.
  - reflexivity.
  - cbn [map _iterencode_dict fst snd encode_key _iterencode].
    fold (_iterencode_dict _iterencode). rewrite IH. reflexivity.
Qed.

Lemma dumps_str_dict kv kvs :
  dumps (str_dict (kv :: kvs))
  = Returns (lit "{" ++ members true (kv :: kvs) ++ lit "}").
Proof.
  unfold dumps, str_dict. cbn [map _iterencode].
  change (_iterencode_dict _iterencode
            ((PyStr (fst kv), PyStr (snd kv))
             :: map (fun kv => (PyStr (fst kv), PyStr (snd kv))) kvs) true)
    with (_iterencode_dict _iterencode
            (map (fun kv => (PyStr (fst kv), PyStr (snd kv))) (kv :: kvs)) true).
  rewrite iterencode_dict_str. reflexivity.
Qed.

Lemma members_text k v kvs rest first :
  members first ((k, v) :: kvs) ++ lit "}" ++ rest
  = (if first then [] else item_separator)
    ++ QUOTE :: member_text k v kvs rest.
Proof.
  revert k v first. induction kvs as [|[k' v'] kvs IH]; intros k v first.
  - cbn [members member_text]. unfold encode_basestring_ascii.
    destruct first; cbn [app]; repeat (rewrite <- ?app_assoc; cbn [app]);
      reflexivity.
  - cbn [member_text]. fold member_text.
    change (44 :: 32 :: QUOTE :: member_text k' v' kvs rest)
      with (item_separator ++ QUOTE :: member_text k' v' kvs rest).
    rewrite <- (IH k' v' false).
    cbn [members]. unfold encode_basestring_ascii.
    destruct first; cbn [app]; repeat (rewrite <- ?app_assoc; cbn [app]);
      reflexivity.
Qed.

Lemma scan_once_readable fuel v rest :
  readable v ->
  scan_once (S fuel) (QUOTE :: escape v ++ QUOTE :: rest) = Some (PyStr v, rest).
Proof.
  intros Hv. cbn [scan_once]. change (QUOTE =? QUOTE) with true. cbv iota.
  rewrite Hv. reflexivity.
Qed.

Lemma object_pairs_round_readable fuel k v tail pairs :
  readable k -> readable v ->
  object_pairs (S (S fuel))
    (escape k ++ QUOTE :: 58 :: 32 :: QUOTE :: escape v ++ QUOTE :: tail) pairs
  = match skip_ws tail with
    | c2 :: r3 =>
        if c2 =? 125 then Some (mk_dict (pairs ++ [(k, PyStr v)]), r3)
        else if c2 =? 44 then
          match skip_ws r3 with
          | q :: r4 =>
              if q =? QUOTE
              then object_pairs (S fuel) r4 (pairs ++ [(k, PyStr v)])
              else None
          | [] => None
          end
        else None
    | [] => None
    end.
Proof.
  intros Hk Hv. cbn [object_pairs]. rewrite Hk.
  match goal with
  | |- context [skip_ws (58 :: 32 :: ?x)] =>
      change (skip_ws (58 :: 32 :: x)) with (58 :: 32 :: x)
  end.
  cbv iota. change (58 =? 58) with true. cbv iota.
  match goal with
  | |- context [skip_ws (32 :: QUOTE :: ?x)] =>
      change (skip_ws (32 :: QUOTE :: x)) with (QUOTE :: x)
  end.
  rewrite scan_once_readable by assumption. reflexivity.
Qed.

Lemma object_pairs_member_text_readable kvs :
  forall k v rest pairs fuel,
    readable_items ((k, v) :: kvs) ->
    (S (List.length kvs) < fuel)%nat ->
    object_pairs fuel (member_text k v kvs rest) pairs
    = Some (mk_dict (pairs ++ str_values ((k, v) :: kvs)), rest).
Proof.
  induction kvs as [|[k' v'] kvs IH]; intros k v rest pairs fuel Hs Hf.
  - inversion Hs as [|? ? [Hk Hv] _]; subst. cbn [fst snd] in Hk, Hv.
    destruct fuel as [|[|fuel]]; [inversion Hf | cbn in Hf; lia |].
    cbn [member_text]. rewrite object_pairs_round_readable by assumption.
    reflexivity.
  - inversion Hs as [|? ? [Hk Hv] Hs']; subst. cbn [fst snd] in Hk, Hv.
    destruct fuel as [|[|fuel]]; [inversion Hf | cbn in Hf; lia |].
    cbn [member_text]. fold member_text.
    rewrite object_pairs_round_readable by assumption.
    match goal with
    | |- context [skip_ws (44 :: 32 :: QUOTE :: ?x)] =>
        change (skip_ws (44 :: 32 :: QUOTE :: x)) with (44 :: 32 :: QUOTE :: x)
    end.
    cbv iota. change (44 =? 125) with false. change (44 =? 44) with true.
    cbv iota.
    match goal with
    | |- context [skip_ws (32 :: QUOTE :: ?x)] =>
        change (skip_ws (32 :: QUOTE :: x)) with (QUOTE :: x)
    end.
    cbv iota. change (QUOTE =? QUOTE) with true. cbv iota.
    rewrite IH by (assumption || (cbn [List.length] in Hf |- *; lia)).
    unfold str_values. cbn [map fst snd]. rewrite <- app_assoc. reflexivity.
Qed.

Lemma members_length kvs first : (List.length kvs <= List.length (members first kvs))%nat.
Proof.
  revert first. induction kvs as [|[k v] kvs IH]; intros first; cbn [members List.length].
  - lia.
  - specialize (IH false). unfold encode_basestring_ascii.
    rewrite !length_app. cbn [List.length]. lia.
Qed.

Lemma scan_once_object fuel r :
  scan_once (S fuel) (123 :: QUOTE :: r) = object_pairs fuel r [].
Proof. reflexivity. Qed.

Lemma loads_object r :
  loads (123 :: QUOTE :: r)
  = match object_pairs (S (S (List.length r))) r [] with
    | Some (obj, rest) =>
        match skip_ws rest with [] => Some obj | _ :: _ => None end
    | None => None
    end.
Proof.
  unfold loads.
  change (skip_ws (123 :: QUOTE :: r)) with (123 :: QUOTE :: r).
  rewrite scan_once_object. reflexivity.
Qed.

(** [json.loads] after [json.dumps] on a non-empty dict of readable
    strings: the dict that [dict(pairs)] makes of the same pairs. *)
Lemma loads_dumps_readable kv kvs :
  readable_items (kv :: kvs) ->
  exists text,
    json.dumps (str_dict (kv :: kvs)) = Returns text /\
    json.loads text = Some (mk_dict (str_values (kv :: kvs))).
Proof.
  intros Hs. eexists. split; [apply dumps_str_dict|].
  destruct kv as [k v].
  rewrite <- (app_nil_r (lit "}")). rewrite (members_text k v kvs [] true).
  change (lit "{" ++ [] ++ QUOTE :: member_text k v kvs [])
    with (123 :: QUOTE :: member_text k v kvs []).
  rewrite loads_object.
  rewrite (object_pairs_member_text_readable kvs k v [] []).
  - reflexivity.
  - exact Hs.
  - pose proof (members_length ((k, v) :: kvs) true) as Hl.
    assert (E : List.length (members true ((k, v) :: kvs) ++ lit "}" ++ [])
                = List.length (QUOTE :: member_text k v kvs []))
      by (rewrite (members_text k v kvs [] true); reflexivity).
    rewrite length_app in E.
    cbn [List.length lit list_ascii_of_string map app] in E, Hl. lia.
Qed.

(** *** The encoder and the decoder on a few values *)

Example dumps_nested :
  json.dumps
    (PyDict [(PyStr (lit "a"), PyList [PyInt 3; PyNone; PyBool true; PyInt (-120)]);
             (PyInt 7, PyDict []);
             (PyStr (lit "s"), PyStr [233; 9; 128512; 127])])
  = Returns (lit "{" ++ quoted "a" ++ lit ": [3, null, true, -120], "
             ++ quoted "7" ++ lit ": {}, " ++ quoted "s" ++ lit ": "
             ++ quoted "\u00e9\t\ud83d\ude00\u007f" ++ lit "}").
Proof. reflexivity. Qed.

Example dumps_rejects_objects :
  json.dumps (PyList [PyInt 1; PyObject "bytes"])
  = Raises (TypeError (lit "Object of type bytes is not JSON serializable")) /\
  json.dumps (PyDict [(PyObject "tuple", PyInt 1)])
  = Raises (TypeError
              (lit "keys must be str, int, float, bool or None, not tuple")).
Proof. split; reflexivity. Qed.

Example loads_accepts :
  json.loads (lit " { " ++ quoted "a" ++ lit " : [1 ,-2, {}] ,"
              ++ quoted "b\/\u0041" ++ lit ":null , " ++ quoted "a"
              ++ lit ": false } ")
  = Some (PyDict [(PyStr (lit "a"), PyBool false);
                  (PyStr (lit "b/A"), PyNone)]).
Proof. reflexivity. Qed.

Example loads_rejects :
  json.loads (lit "[1,]") = None /\
  json.loads (lit "{" ++ quoted "a" ++ lit ":1,}") = None /\
  json.loads (lit "012") = None /\
  json.loads (QUOTE :: 10 :: [QUOTE]) = None /\
  json.loads (QUOTE :: lit "\x" ++ [QUOTE]) = None /\
  json.loads (lit "{} {}") = None.
Proof. repeat split; reflexivity. Qed.

End JsonFacts.

(* ================================================================= *)
(** ** Facts about the methods *)

Module SdkFacts.
Import JsonFacts.
Open Scope py_scope.

Section Request.

Context {O : Type}.
Variables (cls attr : string) (field : O -> option proxy).
Variables (prefix operation : pystr) (record : pyval).

Local Abbreviation request :=
  (SdkSpec.request cls attr field prefix operation record).
Local Abbreviation fails := (SdkSpec.fails cls attr field operation record).
Local Abbreviation no_attribute := (SdkSpec.no_attribute cls attr).
Local Abbreviation printed := (SdkSpec.printed prefix).
Local Abbreviation sent := (SdkSpec.sent operation).
Local Abbreviation fail_safe :=
  (SdkSpec.fail_safe cls attr field prefix operation record).

Lemma request_run self w :
  request self w =
  match json.dumps record with
  | Raises e => (Returns PyNone, self, printed w e)
  | Returns text =>
      match field self with
      | None => (Returns PyNone, self, printed w no_attribute)
      | Some service =>
          match respond service (dbus_calls w) operation text with
          | Returns v => (Returns v, self, sent w service text)
          | Raises e => (Returns PyNone, self, printed (sent w service text) e)
          end
      end
  end.
Proof.
  unfold request, try_except, bind, eval, getattr, call, print, ret.
  destruct (json.dumps record) as [text | e]; [|reflexivity].
  destruct (field self) as [service|]; [|reflexivity].
  destruct (respond service (dbus_calls w) operation text); reflexivity.
Qed.

Lemma request_never_raises self w : raised (result (request self w)) = false.
Proof.
  rewrite request_run.
  destruct (json.dumps record) as [text | e]; [|reflexivity].
  destruct (field self) as [service|]; [|reflexivity].
  destruct (respond service (dbus_calls w) operation text); reflexivity.
Qed.

Lemma request_fails self w e :
  fails self w e ->
  result (request self w) = Returns PyNone /\
  stdout (effects (request self w)) = stdout w ++ [prefix ++ exn_str e].
Proof.
  intros H. rewrite request_run.
  destruct H as [e He | text Ht Hf | text service e Ht Hf Hr].
  - rewrite He. split; reflexivity.
  - rewrite Ht, Hf. split; reflexivity.
  - rewrite Ht, Hf, Hr. split; reflexivity.
Qed.

Lemma request_answered self w text service v :
  json.dumps record = Returns text -> field self = Some service ->
  respond service (dbus_calls w) operation text = Returns v ->
  request self w = (Returns v, self, sent w service text).
Proof.
  intros Ht Hf Hr. rewrite request_run, Ht, Hf, Hr. reflexivity.
Qed.

Lemma request_sent self w text service :
  json.dumps record = Returns text -> field self = Some service ->
  dbus_calls (effects (request self w))
  = dbus_calls w ++ [{| destination := bus_name service;
                        member := operation; argument := text |}] /\
  result (request self w)
  = match respond service (dbus_calls w) operation text with
    | Returns v => Returns v
    | Raises _ => Returns PyNone
    end.
Proof.
  intros Ht Hf. rewrite request_run, Ht, Hf.
  destruct (respond service (dbus_calls w) operation text);
    split; reflexivity.
Qed.

Lemma request_not_encoded self w e :
  json.dumps record = Raises e ->
  request self w = (Returns PyNone, self, printed w e).
Proof.
  intros He. rewrite request_run, He. reflexivity.
Qed.

Lemma request_no_handle self w :
  field self = None ->
  result (request self w) = Returns PyNone /\
  dbus_calls (effects (request self w)) = dbus_calls w.
Proof.
  intros Hf. rewrite request_run, Hf.
  destruct (json.dumps record); split; reflexivity.
Qed.

Lemma request_fail_safe : fail_safe request.
Proof.
  intros self w. split; [apply request_never_raises|]. split.
  - apply request_fails.
  - intros text service Ht Hf Hr.
    rewrite (request_answered self w text service PyNone) by assumption.
    reflexivity.
Qed.

(** A request reads [self] and never writes it. *)
Lemma request_object self w : object (request self w) = self.
Proof.
  rewrite request_run.
  destruct (json.dumps record) as [text | e]; [|reflexivity].
  destruct (field self) as [service|]; [|reflexivity].
  destruct (respond service (dbus_calls w) operation text); reflexivity.
Qed.

End Request.

(** *** Each public method is such a request *)

Lemma set_application_info_request name version description :
  Edgeberry.set_application_info name version description
  = request "Edgeberry" "edgeberry_core_service"
      Edgeberry.edgeberry_core_service
      (lit "Edgeberry: error setting status: ") (lit "SetApplicationInfo")
      (application_info name version description).
Proof. reflexivity. Qed.

Lemma set_status_request level message :
  Edgeberry.set_status level message
  = request "Edgeberry" "edgeberry_core_service"
      Edgeberry.edgeberry_core_service
      (lit "Edgeberry: error setting status: ") (lit "SetApplicationStatus")
      (status level message).
Proof. reflexivity. Qed.

Lemma send_message_request message :
  EdgeberryCloudConnect.send_message message
  = request "EdgeberryCloudConnect" "edgeberry_cloudconnect_service"
      EdgeberryCloudConnect.edgeberry_cloudconnect_service
      (lit "CloudConnect: error sending message: ") (lit "SendMessage")
      (messaged message).
Proof. reflexivity. Qed.

(** *** Construction *)

Lemma Edgeberry_run SystemBus w :
  Edgeberry.Edgeberry SystemBus w =
  match SystemBus with
  | Raises e =>
      (Returns Edgeberry.blank,
       printed (lit "Edgeberry: error connecting to Edgeberry D-Bus: ") w e)
  | Returns b =>
      match get b Edgeberry.EDGEBERRY_SERVICE with
      | Raises e =>
          (Returns {| Edgeberry.bus := Some b;
                      Edgeberry.edgeberry_core_service := None |},
           printed (lit "Edgeberry: error connecting to Edgeberry D-Bus: ") w e)
      | Returns service =>
          (Returns {| Edgeberry.bus := Some b;
                      Edgeberry.edgeberry_core_service := Some service |}, w)
      end
  end.
Proof.
  unfold Edgeberry.Edgeberry, construct, Edgeberry.__init__, try_except, bind,
    eval, setattr, Edgeberry.self_bus, getattr, print, ret, printed.
  destruct SystemBus as [b | e]; [|reflexivity].
  cbn -[Edgeberry.EDGEBERRY_SERVICE lit].
  destruct (get b Edgeberry.EDGEBERRY_SERVICE); reflexivity.
Qed.

Lemma EdgeberryCloudConnect_run SystemBus w :
  EdgeberryCloudConnect.EdgeberryCloudConnect SystemBus w =
  match SystemBus with
  | Raises e =>
      (Returns EdgeberryCloudConnect.blank,
       printed (lit "CloudConnect: error connecting to Edgeberry Cloud Connect D-Bus API: ") w e)
  | Returns b =>
      match get b EdgeberryCloudConnect.EDGEBERRY_SERVICE with
      | Raises e =>
          (Returns {| EdgeberryCloudConnect.bus := Some b;
                      EdgeberryCloudConnect.edgeberry_cloudconnect_service := None |},
           printed (lit "CloudConnect: error connecting to Edgeberry Cloud Connect D-Bus API: ") w e)
      | Returns service =>
          (Returns {| EdgeberryCloudConnect.bus := Some b;
                      EdgeberryCloudConnect.edgeberry_cloudconnect_service := Some service |}, w)
      end
  end.
Proof.
  unfold EdgeberryCloudConnect.EdgeberryCloudConnect, construct,
    EdgeberryCloudConnect.__init__, try_except, bind, eval, setattr,
    EdgeberryCloudConnect.self_bus, getattr, print, ret, printed.
  destruct SystemBus as [b | e]; [|reflexivity].
  cbn -[EdgeberryCloudConnect.EDGEBERRY_SERVICE lit].
  destruct (get b EdgeberryCloudConnect.EDGEBERRY_SERVICE); reflexivity.
Qed.

(** With a connection error, the constructor prints it and returns an
    instance without a service handle. *)
Lemma Edgeberry_unreachable SystemBus w e :
  connection_error Edgeberry.EDGEBERRY_SERVICE SystemBus = Some e ->
  exists self,
    Edgeberry.Edgeberry SystemBus w
    = (Returns self,
       printed (lit "Edgeberry: error connecting to Edgeberry D-Bus: ") w e) /\
    Edgeberry.edgeberry_core_service self = None.
Proof.
  intros He. rewrite Edgeberry_run. unfold connection_error in He.
  destruct SystemBus as [b | e'].
  - destruct (get b Edgeberry.EDGEBERRY_SERVICE) as [service | e'];
      [discriminate He|].
    injection He as ->. eexists. split; reflexivity.
  - injection He as ->. eexists. split; reflexivity.
Qed.

Lemma EdgeberryCloudConnect_unreachable SystemBus w e :
  connection_error EdgeberryCloudConnect.EDGEBERRY_SERVICE SystemBus = Some e ->
  exists self,
    EdgeberryCloudConnect.EdgeberryCloudConnect SystemBus w
    = (Returns self,
       printed (lit "CloudConnect: error connecting to Edgeberry Cloud Connect D-Bus API: ") w e) /\
    EdgeberryCloudConnect.edgeberry_cloudconnect_service self = None.
Proof.
  intros He. rewrite EdgeberryCloudConnect_run. unfold connection_error in He.
  destruct SystemBus as [b | e'].
  - destruct (get b EdgeberryCloudConnect.EDGEBERRY_SERVICE)
      as [service | e']; [discriminate He|].
    injection He as ->. eexists. split; reflexivity.
  - injection He as ->. eexists. split; reflexivity.
Qed.



(** *** The text of the three dicts, written and read back *)


Lemma application_info_dumps name version description :
  json.dumps (application_info (PyStr name) (PyStr version) (PyStr description))
  = Returns (application_info_text name version description).
Proof.
  change (application_info (PyStr name) (PyStr version) (PyStr description))
    with (str_dict [(lit "name", name); (lit "version", version);
                    (lit "description", description)]).
  rewrite dumps_str_dict. f_equal.
  cbn [members fst snd].
  unfold application_info_text, quoted, encode_basestring_ascii,
    item_separator, key_separator.
  change (escape (lit "name")) with (lit "name").
  change (escape (lit "version")) with (lit "version").
  change (escape (lit "description")) with (lit "description").
  repeat (rewrite <- ?app_assoc; cbn [app]). reflexivity.
Qed.

Lemma status_dumps level message :
  json.dumps (status (PyStr level) (PyStr message))
  = Returns (status_text level message).
Proof.
  change (status (PyStr level) (PyStr message))
    with (str_dict [(lit "level", level); (lit "message", message)]).
  rewrite dumps_str_dict. f_equal.
  cbn [members fst snd].
  unfold status_text, quoted, encode_basestring_ascii,
    item_separator, key_separator.
  change (escape (lit "level")) with (lit "level").
  change (escape (lit "message")) with (lit "message").
  repeat (rewrite <- ?app_assoc; cbn [app]). reflexivity.
Qed.

Lemma messaged_dumps message :
  json.dumps (messaged (PyStr message)) = Returns (messaged_text message).
Proof.
  change (messaged (PyStr message)) with (str_dict [(lit "message", message)]).
  rewrite dumps_str_dict. f_equal.
  cbn [members fst snd].
  unfold messaged_text, quoted, encode_basestring_ascii,
    item_separator, key_separator.
  change (escape (lit "message")) with (lit "message").
  repeat (rewrite <- ?app_assoc; cbn [app]). reflexivity.
Qed.

Lemma scalar_lit_name : scalar_str (lit "name").
Proof. repeat constructor. Qed.
Lemma scalar_lit_version : scalar_str (lit "version").
Proof. repeat constructor. Qed.
Lemma scalar_lit_description : scalar_str (lit "description").
Proof. repeat constructor. Qed.
Lemma scalar_lit_level : scalar_str (lit "level").
Proof. repeat constructor. Qed.
Lemma scalar_lit_message : scalar_str (lit "message").
Proof. repeat constructor. Qed.

Lemma application_info_loads_readable name version description :
  readable name -> readable version -> readable description ->
  json.loads (application_info_text name version description)
  = Some (application_info (PyStr name) (PyStr version) (PyStr description)).
Proof.
  intros Hn Hv Hd.
  destruct (loads_dumps_readable (lit "name", name)
              [(lit "version", version); (lit "description", description)])
    as (text & Ht & Hl).
  { repeat constructor; cbn [fst snd];
      auto using scalar_readable, scalar_lit_name, scalar_lit_version,
        scalar_lit_description. }
  change (str_dict [(lit "name", name); (lit "version", version);
                    (lit "description", description)])
    with (application_info (PyStr name) (PyStr version) (PyStr description))
    in Ht.
  rewrite application_info_dumps in Ht. injection Ht as <-.
  rewrite Hl. reflexivity.
Qed.

Lemma status_loads_readable level message :
  readable level -> readable message ->
  json.loads (status_text level message)
  = Some (status (PyStr level) (PyStr message)).
Proof.
  intros Hl Hm.
  destruct (loads_dumps_readable (lit "level", level)
              [(lit "message", message)]) as (text & Ht & Hld).
  { repeat constructor; cbn [fst snd];
      auto using scalar_readable, scalar_lit_level, scalar_lit_message. }
  change (str_dict [(lit "level", level); (lit "message", message)])
    with (status (PyStr level) (PyStr message)) in Ht.
  rewrite status_dumps in Ht. injection Ht as <-.
  rewrite Hld. reflexivity.
Qed.

Lemma messaged_loads_readable message :
  readable message ->
  json.loads (messaged_text message) = Some (messaged (PyStr message)).
Proof.
  intros Hm.
  destruct (loads_dumps_readable (lit "message", message) [])
    as (text & Ht & Hld).
  { repeat constructor; cbn [fst snd];
      auto using scalar_readable, scalar_lit_message. }
  change (str_dict [(lit "message", message)])
    with (messaged (PyStr message)) in Ht.
  rewrite messaged_dumps in Ht. injection Ht as <-.
  rewrite Hld. reflexivity.
Qed.

(** *** [example.py] *)

(** On a host where both services answer, [main] prints nothing and makes
    three calls. *)
Example main_connected :
  main (Returns session) nothing
  = (Returns tt,
     {| stdout := [];
        dbus_calls :=
          [{| destination := lit "io.edgeberry.Core";
              member := lit "SetApplicationInfo";
              argument := example_text |};
           {| destination := lit "io.edgeberry.Core";
              member := lit "SetApplicationStatus";
              argument := lit "{" ++ quoted "level" ++ lit ": " ++ quoted "ok"
                          ++ lit ", " ++ quoted "message" ++ lit ": "
                          ++ quoted "blub" ++ lit "}" |};
           {| destination := lit "io.edgeberry.CloudConnect";
              member := lit "SendMessage";
              argument := lit "{" ++ quoted "message" ++ lit ": "
                          ++ quoted "test message" ++ lit "}" |}] |}).
Proof. reflexivity. Qed.

(** On a host without a system bus, [main] still runs to its end: it makes
    no call and prints five lines. *)
Example main_without_bus :
  main (Raises bus_down) nothing
  = (Returns tt,
     {| stdout :=
          [lit "Edgeberry: error connecting to Edgeberry D-Bus: g-io-error-quark: Could not connect: No such file or directory (1)";
           lit "Edgeberry: error setting status: 'Edgeberry' object has no attribute 'edgeberry_core_service'";
           lit "Edgeberry: error setting status: 'Edgeberry' object has no attribute 'edgeberry_core_service'";
           lit "CloudConnect: error connecting to Edgeberry Cloud Connect D-Bus API: g-io-error-quark: Could not connect: No such file or directory (1)";
           lit "CloudConnect: error sending message: 'EdgeberryCloudConnect' object has no attribute 'edgeberry_cloudconnect_service'"];
        dbus_calls := [] |}).
Proof. reflexivity. Qed.

End SdkFacts.
Import JsonFacts SdkFacts.

(* ================================================================= *)
(** ** The properties of the specification *)

(** *** The call of [example.py] *)

(** C1, as stated, fails on the call of [example.py]: on an instance
    connected to a service, the one argument put on the bus is not the
    compact text of the specification. *)
Lemma example_argument_is_not_compact :
  map argument
    (dbus_calls
       (effects
          (Edgeberry.set_application_info
             (PyStr example_name) (PyStr example_version)
             (PyStr example_description)
             {| Edgeberry.bus := Some session;
                Edgeberry.edgeberry_core_service :=
                  Some (quiet Edgeberry.EDGEBERRY_SERVICE) |}
             nothing)))
  <> [example_compact].
Proof. vm_compute. discriminate. Qed.

(** C1, amended: for the call
    [set_application_info("example", "v3.2.1", "Edgeberry application example")]
    on an instance that holds a service handle, exactly one call goes on the
    bus, to [SetApplicationInfo], and its single argument is the text
    [{"name": "example", "version": "v3.2.1", "description": "Edgeberry application example"}]:
    the keys in the order name, version, description, and one space after
    each colon and each comma. *)
Theorem example_argument (b : option bus) (service : proxy) (w : world) :
  dbus_calls
    (effects
       (Edgeberry.set_application_info
          (PyStr example_name) (PyStr example_version)
          (PyStr example_description)
          {| Edgeberry.bus := b;
             Edgeberry.edgeberry_core_service := Some service |} w))
  = dbus_calls w
    ++ [{| destination := bus_name service;
           member := lit "SetApplicationInfo";
           argument := example_text |}].
Proof.
  rewrite set_application_info_request.
  refine (proj1 (request_sent _ _ _ _ _ _ _ w example_text service _ _));
    reflexivity.
Qed.

(** *** Failures stay inside the methods *)

(** C2: whatever the arguments, the instance, the calls made so far and the
    behaviour of the remote side, [set_application_info], [set_status] and
    [send_message] never raise; whenever something fails inside the method
    (the encoding, the missing handle, the remote call) the error is printed
    behind the method's prefix and the method returns [None]; and [None] is
    also what the method returns when the remote call answers [None], so the
    returned value does not tell the two apart. *)
Theorem public_methods_keep_failures :
  (forall name version description,
     fail_safe "Edgeberry" "edgeberry_core_service"
       Edgeberry.edgeberry_core_service
       (lit "Edgeberry: error setting status: ") (lit "SetApplicationInfo")
       (application_info name version description)
       (Edgeberry.set_application_info name version description)) /\
  (forall level message,
     fail_safe "Edgeberry" "edgeberry_core_service"
       Edgeberry.edgeberry_core_service
       (lit "Edgeberry: error setting status: ") (lit "SetApplicationStatus")
       (status level message)
       (Edgeberry.set_status level message)) /\
  (forall message,
     fail_safe "EdgeberryCloudConnect" "edgeberry_cloudconnect_service"
       EdgeberryCloudConnect.edgeberry_cloudconnect_service
       (lit "CloudConnect: error sending message: ") (lit "SendMessage")
       (messaged message)
       (EdgeberryCloudConnect.send_message message)).
Proof.
  split; [|split]; intros.
  - rewrite set_application_info_request. apply request_fail_safe.
  - rewrite set_status_request. apply request_fail_safe.
  - rewrite send_message_request. apply request_fail_safe.
Qed.

(** A remote call that raises: [set_status("ok", "blub")] returns [None]
    and prints the error. *)
Lemma public_methods_keep_failures_witness :
  let run :=
    Edgeberry.set_status (PyStr (lit "ok")) (PyStr (lit "blub"))
      {| Edgeberry.bus := Some session;
         Edgeberry.edgeberry_core_service :=
           Some (failing Edgeberry.EDGEBERRY_SERVICE) |} nothing in
  result run = Returns PyNone /\
  stdout (effects run)
  = stdout nothing
    ++ [lit "Edgeberry: error setting status: " ++ exn_str remote_error].
Proof.
  refine (proj1 (proj2 (proj1 (proj2 public_methods_keep_failures) _ _ _ _))
            remote_error _).
  eapply fails_remote; reflexivity.
Defined.

(** *** Construction *)

(** C3, as stated, fails where there is no system bus and where the bus does
    not know the service: neither constructor raises anything. *)
Lemma construction_does_not_fail :
  connection_error Edgeberry.EDGEBERRY_SERVICE (Raises bus_down)
  = Some bus_down /\
  connection_error EdgeberryCloudConnect.EDGEBERRY_SERVICE (Returns empty_bus)
  = Some service_unknown /\
  ~ (exists e, fst (Edgeberry.Edgeberry (Raises bus_down) nothing) = Raises e) /\
  ~ (exists e,
       fst (EdgeberryCloudConnect.EdgeberryCloudConnect (Returns empty_bus)
              nothing) = Raises e).
Proof.
  repeat split; try reflexivity; intros [e H]; vm_compute in H; discriminate H.
Qed.

(** C3, amended: if the bus or the named service is not reachable at
    construction time, construction does not fail: the constructor prints
    the connection error behind its prefix, puts nothing on the bus, and
    returns an instance that has no service handle. *)
Theorem unreachable_construction (SystemBus : outcome bus) (w : world) :
  (forall e,
     connection_error Edgeberry.EDGEBERRY_SERVICE SystemBus = Some e ->
     exists self,
       Edgeberry.Edgeberry SystemBus w
       = (Returns self,
          {| stdout := stdout w
               ++ [lit "Edgeberry: error connecting to Edgeberry D-Bus: "
                   ++ exn_str e];
             dbus_calls := dbus_calls w |}) /\
       Edgeberry.edgeberry_core_service self = None) /\
  (forall e,
     connection_error EdgeberryCloudConnect.EDGEBERRY_SERVICE SystemBus
     = Some e ->
     exists self,
       EdgeberryCloudConnect.EdgeberryCloudConnect SystemBus w
       = (Returns self,
          {| stdout := stdout w
               ++ [lit "CloudConnect: error connecting to Edgeberry Cloud Connect D-Bus API: "
                   ++ exn_str e];
             dbus_calls := dbus_calls w |}) /\
       EdgeberryCloudConnect.edgeberry_cloudconnect_service self = None).
Proof.
  split; intros e He.
  - apply Edgeberry_unreachable. exact He.
  - apply EdgeberryCloudConnect_unreachable. exact He.
Qed.

(** No system bus: [Edgeberry()] still returns an instance. *)
Lemma unreachable_construction_witness :
  exists self,
    Edgeberry.Edgeberry (Raises bus_down) nothing
    = (Returns self,
       {| stdout := stdout nothing
            ++ [lit "Edgeberry: error connecting to Edgeberry D-Bus: "
                ++ exn_str bus_down];
          dbus_calls := dbus_calls nothing |}) /\
    Edgeberry.edgeberry_core_service self = None.
Proof.
  apply (proj1 (unreachable_construction (Raises bus_down) nothing) bus_down).
  reflexivity.
Defined.

(** C9: for any state of the bus, [Edgeberry()] and
    [EdgeberryCloudConnect()] complete and yield an instance; they put
    nothing on the bus, and the only trace of a connection error is one
    printed line. *)
Theorem constructors_never_raise (SystemBus : outcome bus) (w : world) :
  (exists self w',
     Edgeberry.Edgeberry SystemBus w = (Returns self, w') /\
     dbus_calls w' = dbus_calls w /\
     (stdout w' = stdout w \/ exists line, stdout w' = stdout w ++ [line])) /\
  (exists self w',
     EdgeberryCloudConnect.EdgeberryCloudConnect SystemBus w
     = (Returns self, w') /\
     dbus_calls w' = dbus_calls w /\
     (stdout w' = stdout w \/ exists line, stdout w' = stdout w ++ [line])).
Proof.
  split.
  - rewrite Edgeberry_run. destruct SystemBus as [b | e].
    + destruct (get b Edgeberry.EDGEBERRY_SERVICE) as [service | e];
        do 2 eexists; (split; [reflexivity|]); (split; [reflexivity|]);
        [left; reflexivity | right; eexists; reflexivity].
    + do 2 eexists. split; [reflexivity|]. split; [reflexivity|].
      right. eexists. reflexivity.
  - rewrite EdgeberryCloudConnect_run. destruct SystemBus as [b | e].
    + destruct (get b EdgeberryCloudConnect.EDGEBERRY_SERVICE)
        as [service | e];
        do 2 eexists; (split; [reflexivity|]); (split; [reflexivity|]);
        [left; reflexivity | right; eexists; reflexivity].
    + do 2 eexists. split; [reflexivity|]. split; [reflexivity|].
      right. eexists. reflexivity.
Qed.

(** C4: when the bus or the service was unreachable at construction time,
    the instance the constructor returned has no service handle, and every
    later call of a public method on it returns [None] and puts nothing on
    the bus, whatever the arguments and whatever happened in between. *)
Theorem calls_without_handle_return_none (SystemBus : outcome bus) (w0 : world) :
  (forall e self w1,
     connection_error Edgeberry.EDGEBERRY_SERVICE SystemBus = Some e ->
     Edgeberry.Edgeberry SystemBus w0 = (Returns self, w1) ->
     (forall name version description w,
        let run := Edgeberry.set_application_info name version description
                     self w in
        result run = Returns PyNone /\ dbus_calls (effects run) = dbus_calls w) /\
     (forall level message w,
        let run := Edgeberry.set_status level message self w in
        result run = Returns PyNone /\ dbus_calls (effects run) = dbus_calls w)) /\
  (forall e self w1,
     connection_error EdgeberryCloudConnect.EDGEBERRY_SERVICE SystemBus
     = Some e ->
     EdgeberryCloudConnect.EdgeberryCloudConnect SystemBus w0
     = (Returns self, w1) ->
     forall message w,
       let run := EdgeberryCloudConnect.send_message message self w in
       result run = Returns PyNone /\ dbus_calls (effects run) = dbus_calls w).
Proof.
  split; intros e self w1 He Hrun.
  - destruct (Edgeberry_unreachable SystemBus w0 e He)
      as (self' & Hrun' & Hnone).
    rewrite Hrun in Hrun'. injection Hrun' as <- _.
    split; intros.
    + subst run. rewrite set_application_info_request.
      apply request_no_handle. exact Hnone.
    + subst run. rewrite set_status_request.
      apply request_no_handle. exact Hnone.
  - destruct (EdgeberryCloudConnect_unreachable SystemBus w0 e He)
      as (self' & Hrun' & Hnone).
    rewrite Hrun in Hrun'. injection Hrun' as <- _.
    intros. subst run. rewrite send_message_request.
    apply request_no_handle. exact Hnone.
Qed.

(** On a bus that does not know the service, [send_message("test message")]
    returns [None] and calls nothing. *)
Lemma calls_without_handle_return_none_witness :
  let run :=
    EdgeberryCloudConnect.send_message (PyStr (lit "test message"))
      {| EdgeberryCloudConnect.bus := Some empty_bus;
         EdgeberryCloudConnect.edgeberry_cloudconnect_service := None |}
      nothing in
  result run = Returns PyNone /\ dbus_calls (effects run) = dbus_calls nothing.
Proof.
  refine (proj2 (calls_without_handle_return_none (Returns empty_bus) nothing)
            service_unknown _ _ _ _ (PyStr (lit "test message")) nothing);
    reflexivity.
Defined.

(** C10: when [json.dumps] raises on the dict a method builds, the method
    returns [None], prints the error, and the call list of the bus is what
    it was: the remote operation is not invoked. *)
Theorem encoding_failure_calls_nothing :
  (forall name version description self w e,
     json.dumps (application_info name version description) = Raises e ->
     let run := Edgeberry.set_application_info name version description
                  self w in
     result run = Returns PyNone /\
     dbus_calls (effects run) = dbus_calls w /\
     stdout (effects run)
     = stdout w ++ [lit "Edgeberry: error setting status: " ++ exn_str e]) /\
  (forall level message self w e,
     json.dumps (status level message) = Raises e ->
     let run := Edgeberry.set_status level message self w in
     result run = Returns PyNone /\
     dbus_calls (effects run) = dbus_calls w /\
     stdout (effects run)
     = stdout w ++ [lit "Edgeberry: error setting status: " ++ exn_str e]) /\
  (forall message self w e,
     json.dumps (messaged message) = Raises e ->
     let run := EdgeberryCloudConnect.send_message message self w in
     result run = Returns PyNone /\
     dbus_calls (effects run) = dbus_calls w /\
     stdout (effects run)
     = stdout w ++ [lit "CloudConnect: error sending message: " ++ exn_str e]).
Proof.
  split; [|split]; intros; subst run.
  - rewrite set_application_info_request.
    rewrite (request_not_encoded _ _ _ _ _ _ self w e) by assumption.
    repeat split.
  - rewrite set_status_request.
    rewrite (request_not_encoded _ _ _ _ _ _ self w e) by assumption.
    repeat split.
  - rewrite send_message_request.
    rewrite (request_not_encoded _ _ _ _ _ _ self w e) by assumption.
    repeat split.
Qed.

(** A [set] as the description: nothing reaches the connected service. *)
Lemma encoding_failure_calls_nothing_witness :
  let run :=
    Edgeberry.set_application_info
      (PyStr example_name) (PyStr example_version) (PyObject "set")
      {| Edgeberry.bus := Some session;
         Edgeberry.edgeberry_core_service :=
           Some (quiet Edgeberry.EDGEBERRY_SERVICE) |} nothing in
  result run = Returns PyNone /\
  dbus_calls (effects run) = dbus_calls nothing /\
  stdout (effects run)
  = stdout nothing
    ++ [lit "Edgeberry: error setting status: "
        ++ lit "Object of type set is not JSON serializable"].
Proof.
  refine (proj1 encoding_failure_calls_nothing _ _ _ _ nothing
            (TypeError (lit "Object of type set is not JSON serializable")) _).
  reflexivity.
Defined.

(** *** What goes on the bus *)

(** C5: for all strings [name], [version] and [description], empty or not,
    ASCII or not, [set_application_info] on an instance that holds a service
    handle encodes the dict with exactly the keys name, version and
    description and the arguments as their values, puts exactly one call on
    the bus, to [SetApplicationInfo] with that text, and returns what the
    remote call returns ([None] when it raises). *)
Theorem set_application_info_calls_once
  (b : option bus) (service : proxy) (name version description : pystr)
  (w : world) :
  let run :=
    Edgeberry.set_application_info (PyStr name) (PyStr version)
      (PyStr description)
      {| Edgeberry.bus := b;
         Edgeberry.edgeberry_core_service := Some service |} w in
  let text := application_info_text name version description in
  json.dumps (PyDict [(PyStr (lit "name"), PyStr name);
                      (PyStr (lit "version"), PyStr version);
                      (PyStr (lit "description"), PyStr description)])
  = Returns text /\
  dbus_calls (effects run)
  = dbus_calls w ++ [{| destination := bus_name service;
                        member := lit "SetApplicationInfo";
                        argument := text |}] /\
  result run
  = match respond service (dbus_calls w) (lit "SetApplicationInfo") text with
    | Returns v => Returns v
    | Raises _ => Returns PyNone
    end.
Proof.
  intros run text. split; [apply application_info_dumps|].
  subst run. rewrite set_application_info_request.
  apply request_sent; [apply application_info_dumps | reflexivity].
Qed.

(** C6: for all strings [level] and [message], [set_status] on an instance
    that holds a service handle encodes the dict with exactly the keys level
    and message and the arguments as their values, and puts exactly one call
    on the bus, to [SetApplicationStatus] with that text. *)
Theorem set_status_calls_once
  (b : option bus) (service : proxy) (level message : pystr) (w : world) :
  let run :=
    Edgeberry.set_status (PyStr level) (PyStr message)
      {| Edgeberry.bus := b;
         Edgeberry.edgeberry_core_service := Some service |} w in
  let text := status_text level message in
  json.dumps (PyDict [(PyStr (lit "level"), PyStr level);
                      (PyStr (lit "message"), PyStr message)])
  = Returns text /\
  dbus_calls (effects run)
  = dbus_calls w ++ [{| destination := bus_name service;
                        member := lit "SetApplicationStatus";
                        argument := text |}] /\
  result run
  = match respond service (dbus_calls w) (lit "SetApplicationStatus") text with
    | Returns v => Returns v
    | Raises _ => Returns PyNone
    end.
Proof.
  intros run text. split; [apply status_dumps|].
  subst run. rewrite set_status_request.
  apply request_sent; [apply status_dumps | reflexivity].
Qed.

(** C7: for every string [message], the empty one included, [send_message]
    on an instance that holds a service handle encodes the dict with the
    single key message and the argument as its value, and puts exactly one
    call on the bus, to [SendMessage] with that text. *)
Theorem send_message_calls_once
  (b : option bus) (service : proxy) (message : pystr) (w : world) :
  let run :=
    EdgeberryCloudConnect.send_message (PyStr message)
      {| EdgeberryCloudConnect.bus := b;
         EdgeberryCloudConnect.edgeberry_cloudconnect_service :=
           Some service |} w in
  let text := messaged_text message in
  json.dumps (PyDict [(PyStr (lit "message"), PyStr message)]) = Returns text /\
  dbus_calls (effects run)
  = dbus_calls w ++ [{| destination := bus_name service;
                        member := lit "SendMessage";
                        argument := text |}] /\
  result run
  = match respond service (dbus_calls w) (lit "SendMessage") text with
    | Returns v => Returns v
    | Raises _ => Returns PyNone
    end.
Proof.
  intros run text. split; [apply messaged_dumps|].
  subst run. rewrite send_message_request.
  apply request_sent; [apply messaged_dumps | reflexivity].
Qed.

(** *** Round trip *)

(** C8: for strings of Unicode scalar values (every printable string is
    one; quotes and backslashes are allowed), the argument that
    [set_application_info], [set_status] and [send_message] put on the bus
    decodes, with [json.loads], to a dict with the same keys and the
    original strings as values. *)
Theorem arguments_round_trip :
  (forall b service w name version description,
     scalar_str name -> scalar_str version -> scalar_str description ->
     exists text,
       dbus_calls
         (effects
            (Edgeberry.set_application_info (PyStr name) (PyStr version)
               (PyStr description)
               {| Edgeberry.bus := b;
                  Edgeberry.edgeberry_core_service := Some service |} w))
       = dbus_calls w ++ [{| destination := bus_name service;
                             member := lit "SetApplicationInfo";
                             argument := text |}] /\
       json.loads text
       = Some (PyDict [(PyStr (lit "name"), PyStr name);
                       (PyStr (lit "version"), PyStr version);
                       (PyStr (lit "description"), PyStr description)])) /\
  (forall b service w level message,
     scalar_str level -> scalar_str message ->
     exists text,
       dbus_calls
         (effects
            (Edgeberry.set_status (PyStr level) (PyStr message)
               {| Edgeberry.bus := b;
                  Edgeberry.edgeberry_core_service := Some service |} w))
       = dbus_calls w ++ [{| destination := bus_name service;
                             member := lit "SetApplicationStatus";
                             argument := text |}] /\
       json.loads text
       = Some (PyDict [(PyStr (lit "level"), PyStr level);
                       (PyStr (lit "message"), PyStr message)])) /\
  (forall b service w message,
     scalar_str message ->
     exists text,
       dbus_calls
         (effects
            (EdgeberryCloudConnect.send_message (PyStr message)
               {| EdgeberryCloudConnect.bus := b;
                  EdgeberryCloudConnect.edgeberry_cloudconnect_service :=
                    Some service |} w))
       = dbus_calls w ++ [{| destination := bus_name service;
                             member := lit "SendMessage";
                             argument := text |}] /\
       json.loads text = Some (PyDict [(PyStr (lit "message"), PyStr message)])).
Proof.
  split; [|split]; intros.
  - exists (application_info_text name version description). split.
    + rewrite set_application_info_request.
      apply request_sent; [apply application_info_dumps | reflexivity].
    + apply application_info_loads_readable; apply scalar_readable; assumption.
  - exists (status_text level message). split.
    + rewrite set_status_request.
      apply request_sent; [apply status_dumps | reflexivity].
    + apply status_loads_readable; apply scalar_readable; assumption.
  - exists (messaged_text message). split.
    + rewrite send_message_request.
      apply request_sent; [apply messaged_dumps | reflexivity].
    + apply messaged_loads_readable; apply scalar_readable; assumption.
Qed.

Lemma arguments_round_trip_witness :
  exists text,
    dbus_calls
      (effects
         (EdgeberryCloudConnect.send_message (PyStr awkward)
            {| EdgeberryCloudConnect.bus := Some session;
               EdgeberryCloudConnect.edgeberry_cloudconnect_service :=
                 Some (quiet EdgeberryCloudConnect.EDGEBERRY_SERVICE) |}
            nothing))
    = dbus_calls nothing
      ++ [{| destination :=
               bus_name (quiet EdgeberryCloudConnect.EDGEBERRY_SERVICE);
             member := lit "SendMessage";
             argument := text |}] /\
    json.loads text = Some (PyDict [(PyStr (lit "message"), PyStr awkward)]).
Proof.
  apply (proj2 (proj2 arguments_round_trip)).
  repeat constructor.
Defined.

(** Outside the scalar values the round trip can fail: two surrogates that
    stand next to each other in the message come back as one code point. *)
Example surrogates_are_joined :
  json.dumps (messaged (PyStr [55357; 56832]))
  = Returns (lit "{" ++ quoted "message" ++ lit ": " ++ quoted "\ud83d\ude00"
             ++ lit "}") /\
  json.loads (lit "{" ++ quoted "message" ++ lit ": " ++ quoted "\ud83d\ude00"
              ++ lit "}")
  = Some (messaged (PyStr [128512])).
Proof. split; reflexivity. Qed.

(* ================================================================= *)
(** ** Further properties of the SDK *)

(** X1: the three public methods only read the instance: after a call,
    whatever its arguments and outcome, the instance is what it was, so it
    can be used again. *)
Theorem methods_leave_instance :
  (forall name version description self w,
     object (Edgeberry.set_application_info name version description self w)
     = self) /\
  (forall level message self w,
     object (Edgeberry.set_status level message self w) = self) /\
  (forall message self w,
     object (EdgeberryCloudConnect.send_message message self w) = self).
Proof.
  split; [|split]; intros.
  - rewrite set_application_info_request. apply request_object.
  - rewrite set_status_request. apply request_object.
  - rewrite send_message_request. apply request_object.
Qed.


(** X11: the round trip holds for every Python string in which no high
    surrogate stands directly before a low surrogate: control characters,
    NUL, non-characters and lone surrogates included.  For such field
    values, [json.loads] of the text each method encodes gives back the
    dict the method built. *)
Theorem round_trip_without_pairs :
  (forall name version description,
     stable_str name -> stable_str version -> stable_str description ->
     exists text,
       json.dumps (application_info (PyStr name) (PyStr version)
                     (PyStr description)) = Returns text /\
       json.loads text
       = Some (PyDict [(PyStr (lit "name"), PyStr name);
                       (PyStr (lit "version"), PyStr version);
                       (PyStr (lit "description"), PyStr description)])) /\
  (forall level message,
     stable_str level -> stable_str message ->
     exists text,
       json.dumps (status (PyStr level) (PyStr message)) = Returns text /\
       json.loads text
       = Some (PyDict [(PyStr (lit "level"), PyStr level);
                       (PyStr (lit "message"), PyStr message)])) /\
  (forall message,
     stable_str message ->
     exists text,
       json.dumps (messaged (PyStr message)) = Returns text /\
       json.loads text = Some (PyDict [(PyStr (lit "message"), PyStr message)])).
Proof.
  split; [|split]; intros.
  - exists (application_info_text name version description).
    split; [apply application_info_dumps|].
    apply application_info_loads_readable; apply stable_readable; assumption.
  - exists (status_text level message). split; [apply status_dumps|].
    apply status_loads_readable; apply stable_readable; assumption.
  - exists (messaged_text message). split; [apply messaged_dumps|].
    apply messaged_loads_readable; apply stable_readable; assumption.
Qed.

(** A message with NUL, a lone low surrogate, a lone high surrogate before
    a letter, and U+FFFF. *)
Lemma round_trip_without_pairs_witness :
  exists text,
    json.dumps (messaged (PyStr [0; 56832; 55357; 97; 65535])) = Returns text /\
    json.loads text
    = Some (PyDict [(PyStr (lit "message"),
                     PyStr [0; 56832; 55357; 97; 65535])]).
Proof.
  apply (proj2 (proj2 round_trip_without_pairs)).
  split; [repeat constructor | reflexivity].
Defined.
